(** * GenericRA: the checkpointed experiment template

    A shallow embedding of [src/src/experiment.py] (class
    [ExperimentTemplate]) together with the small part of the Python
    runtime it relies on: exceptions and [try/except Exception],
    [datetime.now()] and its two renderings, [pathlib] file names, a
    directory of files with modification times, and [pickle]/[json]
    writes that may fail.

    Methods are computations in a state-and-exception monad over the
    instance ([self]) and the world (files, clock, stdout).  A raised
    exception keeps every mutation made before it, as in Python. *)

From Stdlib Require Import ZArith QArith String Ascii List Lia DecimalString.
From stdpp Require Import base gmap strings list.
Import ListNotations.
Local Open Scope string_scope.

(** ** Exceptions *)

(** The exception classes that occur.  [UserError] stands for any
    [Exception] subclass raised by subclass code; [KeyboardInterrupt]
    and [SystemExit] derive from [BaseException] only. *)
Inductive exn_class : Type :=
| ValueError
| ZeroDivisionError
| OSError
| PickleError
| UserError
| KeyboardInterrupt
| SystemExit.

(** [isinstance(e, Exception)]. *)
Definition is_Exception (c : exn_class) : bool :=
  match c with
  | KeyboardInterrupt | SystemExit => false
  | _ => true
  end.

(** An exception object as a handler sees it: its class and the text
    [str(e)] returns.  An exception whose [__str__] raises has no such
    text and is outside this model. *)
Record exn : Type := Exn { exn_cls : exn_class; exn_str : string }.

Inductive outcome (A : Type) : Type :=
| Returns (a : A)
| Raises (e : exn).
Arguments Returns {A} a.
Arguments Raises {A} e.

Definition returned {A} (o : outcome A) : bool :=
  match o with Returns _ => true | Raises _ => false end.

(** ** The state-and-exception monad *)

Definition M (S A : Type) : Type := S -> outcome A * S.

Definition ret {S A} (a : A) : M S A := fun s => (Returns a, s).

Definition raise {S A} (e : exn) : M S A := fun s => (Raises e, s).

Definition bind {S A B} (m : M S A) (k : A -> M S B) : M S B :=
  fun s => match m s with
           | (Returns a, s') => k a s'
           | (Raises e, s') => (Raises e, s')
           end.

Definition gets {S A} (f : S -> A) : M S A := fun s => (Returns (f s), s).

Definition modify {S} (f : S -> S) : M S unit := fun s => (Returns tt, f s).

(** [try: body  except Exception as e: handler e].  The handler runs in
    the state the body left behind; an exception that is not an
    [Exception] instance passes through. *)
Definition try_except_Exception {S A} (body : M S A) (handler : exn -> M S A)
  : M S A :=
  fun s => match body s with
           | (Returns a, s') => (Returns a, s')
           | (Raises e, s') =>
               if is_Exception (exn_cls e) then handler e s'
               else (Raises e, s')
           end.

(** A pure call that may raise, run inside the monad. *)
Definition call {S A} (o : outcome A) : M S A := fun s => (o, s).

Declare Scope py_scope.
Delimit Scope py_scope with py.
Notation "x <- c1 ;; c2" := (bind c1 (fun x => c2))
  (at level 100, c1 at next level, right associativity) : py_scope.
Notation "c1 ;; c2" := (bind c1 (fun _ => c2))
  (at level 100, right associativity) : py_scope.

(** ** Integers and strings *)

(** [str(n)] for an [int]. *)
Definition str_int (z : Z) : string := NilEmpty.string_of_int (Z.to_int z).

Definition str_nat (n : nat) : string := NilEmpty.string_of_uint (Nat.to_uint n).

Fixpoint zeros (n : nat) : string :=
  match n with
  | O => EmptyString
  | S n' => String "0" (zeros n')
  end.

(** [%0wd]: pad with zeros on the left up to width [w], never cut. *)
Definition zfill (w : nat) (n : nat) : string :=
  let s := str_nat n in zeros (w - String.length s) ++ s.

(** [a % b] on Python integers: raises on a zero divisor; otherwise the
    result has the sign of the divisor, as [Z.modulo] does. *)
Definition py_mod (a b : Z) : outcome Z :=
  if (b =? 0)%Z then Raises (Exn ZeroDivisionError "integer modulo by zero")
  else Returns (a mod b)%Z.

(** ** datetime *)

Record datetime : Type := {
  year : nat; month : nat; day : nat;
  hour : nat; minute : nat; second : nat; microsecond : nat
}.

(** [t.strftime("%Y%m%d_%H%M%S")] *)
Definition strftime_stamp (t : datetime) : string :=
  zfill 4 (year t) ++ zfill 2 (month t) ++ zfill 2 (day t) ++ "_" ++
  zfill 2 (hour t) ++ zfill 2 (minute t) ++ zfill 2 (second t).

(** [t.isoformat()]: the fraction is printed only when it is not zero. *)
Definition isoformat (t : datetime) : string :=
  zfill 4 (year t) ++ "-" ++ zfill 2 (month t) ++ "-" ++ zfill 2 (day t) ++ "T" ++
  zfill 2 (hour t) ++ ":" ++ zfill 2 (minute t) ++ ":" ++ zfill 2 (second t) ++
  (if Nat.eqb (microsecond t) 0 then EmptyString else "." ++ zfill 6 (microsecond t)).

(** ** Paths *)

(** A file of a directory: [Path(parent) / name].  The name is kept as
    it is given, which is the path [pathlib] builds when the name is a
    single path component; [pathlib] would split a name holding a
    separator and resolve an absolute one. *)
Record Path : Type := { parent : string; name : string }.

Definition path_join (dir fname : string) : Path :=
  {| parent := dir; name := fname |}.

(** [str(p)], for a directory spelled the way [pathlib] prints it. *)
Definition str_path (p : Path) : string := parent p ++ "/" ++ name p.

Definition path_eqb (p q : Path) : bool :=
  String.eqb (parent p) (parent q) && String.eqb (name p) (name q).

(** [s.rfind(c)] *)
Fixpoint rfind (c : ascii) (s : string) : option nat :=
  match s with
  | EmptyString => None
  | String a s' =>
      match rfind c s' with
      | Some i => Some (S i)
      | None => if Ascii.eqb a c then Some O else None
      end
  end.

(** [PurePath.suffix]: from the last dot on, unless that dot is the first
    or the last character of the name. *)
Definition suffix (fname : string) : string :=
  match rfind "." fname with
  | Some i =>
      if Nat.ltb 0 i && Nat.ltb i (String.length fname - 1)
      then substring i (String.length fname - i) fname
      else EmptyString
  | None => EmptyString
  end.

(** [p.with_suffix(suf)], the suffix being that of the name. *)
Definition with_suffix (p : Path) (suf : string) : Path :=
  let n := name p in
  {| parent := parent p;
     name := substring 0 (String.length n - String.length (suffix n)) n ++ suf |}.

Definition ends_with (suf s : string) : bool :=
  Nat.leb (String.length suf) (String.length s) &&
  String.eqb (substring (String.length s - String.length suf) (String.length suf) s) suf.

(** A file name against the pattern [pre*suf], for [pre] and [suf] that
    hold no pattern character: [*] stands for any run of characters, the
    empty one too.  The experiment name is written into the pattern as it
    is; names holding one of the characters [*], [?] or an opening
    bracket are outside this model. *)
Definition fnmatch_star (pre suf fname : string) : bool :=
  Nat.leb (String.length pre + String.length suf) (String.length fname) &&
  String.prefix pre fname && ends_with suf fname.

(** ** Values stored in the metadata dictionary *)

Inductive pyval : Type :=
| PStr (s : string)
| PInt (z : Z).

(** [d.update({k1: v1, ...})]: the pairs are stored one after the other. *)
Definition dict_update (new : list (string * pyval)) (d : gmap string pyval)
  : gmap string pyval :=
  fold_left (fun m kv => <[fst kv := snd kv]> m) new d.

Section Template.

(** The type of the raw inputs, the processed inputs and the outputs
    ([Any] in the source). *)
Context {Any : Type}.

(** ** Data model *)

(** One entry of [self.results].  A key the dictionary does not hold is
    [None]: the success entry has no ["error"], the error entry has no
    ["processed_input"] and no ["output"]. *)
Record ResultRecord : Type := {
  r_iteration : Z;
  r_input : Any;
  r_processed_input : option Any;
  r_output : option Any;
  r_error : option string;
  r_timestamp : string;
  r_status : string
}.

(** The dictionary a checkpoint file unpickles to.  [save] writes all
    four keys; [_load_progress] reads each with [dict.get] and a
    default, so a key may be absent ([None]). *)
Record SaveData : Type := {
  sd_metadata : option (gmap string pyval);
  sd_results : option (list ResultRecord);
  sd_current_iteration : option Z;
  sd_experiment_name : option string
}.

(** The companion summary written with [json.dump]. *)
Record JsonData : Type := {
  j_metadata : gmap string pyval;
  j_current_iteration : Z;
  j_experiment_name : string;
  j_results_count : Z
}.

(** What a file holds.  [Unreadable why]: bytes on which [pickle.load]
    raises an exception whose text is [why] (an empty or cut file,
    foreign bytes). *)
Inductive content : Type :=
| Pickled (d : SaveData)
| JsonText (j : JsonData)
| Unreadable (why : string).

Record File : Type := { f_path : Path; f_mtime : Z; f_content : content }.

(** The answer of the operating system to one write-side request:
    success, with the modification time the file gets, or an error. *)
Inductive io_event : Type :=
| IoOk (mtime : Z)
| IoErr (e : exn).

(** The world outside the instance.  [files] is the directory listing in
    the order the operating system yields it.  [clock] and [io] give the
    answer to the k-th request made to the environment; [tick] counts
    the requests made so far. *)
Record World : Type := {
  files : list File;
  clock : nat -> datetime;
  io : nat -> io_event;
  tick : nat;
  stdout : list string
}.

Definition with_files (f : list File -> list File) (w : World) : World :=
  {| files := f (files w); clock := clock w; io := io w; tick := tick w;
     stdout := stdout w |}.

Definition advance (w : World) : World :=
  {| files := files w; clock := clock w; io := io w; tick := S (tick w);
     stdout := stdout w |}.

Definition with_stdout (f : list string -> list string) (w : World) : World :=
  {| files := files w; clock := clock w; io := io w; tick := tick w;
     stdout := f (stdout w) |}.

(** The attributes of an instance. *)
Record Experiment : Type := {
  experiment_name : string;
  output_dir : string;
  save_interval : Z;
  auto_save : bool;
  current_iteration : Z;
  total_iterations : Z;
  benchmark_dir : option Path;
  log_dir : option Path;
  results : list ResultRecord;
  metadata : gmap string pyval
}.

Definition with_current_iteration (f : Z -> Z) (e : Experiment) : Experiment :=
  {| experiment_name := experiment_name e; output_dir := output_dir e;
     save_interval := save_interval e; auto_save := auto_save e;
     current_iteration := f (current_iteration e);
     total_iterations := total_iterations e;
     benchmark_dir := benchmark_dir e; log_dir := log_dir e;
     results := results e; metadata := metadata e |}.

Definition with_results (f : list ResultRecord -> list ResultRecord)
  (e : Experiment) : Experiment :=
  {| experiment_name := experiment_name e; output_dir := output_dir e;
     save_interval := save_interval e; auto_save := auto_save e;
     current_iteration := current_iteration e;
     total_iterations := total_iterations e;
     benchmark_dir := benchmark_dir e; log_dir := log_dir e;
     results := f (results e); metadata := metadata e |}.

Definition with_metadata (f : gmap string pyval -> gmap string pyval)
  (e : Experiment) : Experiment :=
  {| experiment_name := experiment_name e; output_dir := output_dir e;
     save_interval := save_interval e; auto_save := auto_save e;
     current_iteration := current_iteration e;
     total_iterations := total_iterations e;
     benchmark_dir := benchmark_dir e; log_dir := log_dir e;
     results := results e; metadata := f (metadata e) |}.

Definition with_benchmark_dir (p : Path) (e : Experiment) : Experiment :=
  {| experiment_name := experiment_name e; output_dir := output_dir e;
     save_interval := save_interval e; auto_save := auto_save e;
     current_iteration := current_iteration e;
     total_iterations := total_iterations e;
     benchmark_dir := Some p; log_dir := log_dir e;
     results := results e; metadata := metadata e |}.

Definition with_log_dir (p : Path) (e : Experiment) : Experiment :=
  {| experiment_name := experiment_name e; output_dir := output_dir e;
     save_interval := save_interval e; auto_save := auto_save e;
     current_iteration := current_iteration e;
     total_iterations := total_iterations e;
     benchmark_dir := benchmark_dir e; log_dir := Some p;
     results := results e; metadata := metadata e |}.

(** A method runs on the instance and the world. *)
Definition Sys : Type := (Experiment * World)%type.

Definition Method (A : Type) : Type := M Sys A.

Definition self_ {A} (f : Experiment -> A) : Method A :=
  gets (fun s : Sys => f (fst s)).

Definition set_self (f : Experiment -> Experiment) : Method unit :=
  modify (fun s : Sys => (f (fst s), snd s)).

Definition set_world (f : World -> World) : Method unit :=
  modify (fun s : Sys => (fst s, f (snd s))).

(** ** Requests to the environment *)

(** [datetime.now()] *)
Definition datetime_now : Method datetime :=
  fun s => (Returns (clock (snd s) (tick (snd s))), (fst s, advance (snd s))).

Definition next_io : Method io_event :=
  fun s => (Returns (io (snd s) (tick (snd s))), (fst s, advance (snd s))).

Definition print (line : string) : Method unit :=
  set_world (with_stdout (fun out => (out ++ [line])%list)).

(** [p.mkdir(parents=True, exist_ok=True)].  Directories are not listed
    in [files]; the call can only fail. *)
Definition mkdir (p : string) : Method unit :=
  (ev <- next_io ;;
   match ev with
   | IoOk _ => ret tt
   | IoErr e => raise e
   end)%py.

(** Create the file [p], or replace what it holds, keeping its place in
    the listing. *)
Fixpoint fs_write (p : Path) (m : Z) (c : content) (fs : list File) : list File :=
  match fs with
  | [] => [ {| f_path := p; f_mtime := m; f_content := c |} ]
  | f :: fs' =>
      if path_eqb (f_path f) p
      then {| f_path := p; f_mtime := m; f_content := c |} :: fs'
      else f :: fs_write p m c fs'
  end.

Fixpoint fs_lookup (p : Path) (fs : list File) : option File :=
  match fs with
  | [] => None
  | f :: fs' => if path_eqb (f_path f) p then Some f else fs_lookup p fs'
  end.

(** [with open(p, mode) as f: dump(payload, f)].  Opening for writing
    cuts the file to length zero; the dump can still fail afterwards and
    then leaves the cut file behind. *)
Definition write_file (p : Path) (payload : content) : Method unit :=
  (ev <- next_io ;;
   match ev with
   | IoErr e => raise e
   | IoOk m =>
       set_world (with_files (fs_write p m (Unreadable "Ran out of input"))) ;;
       ev' <- next_io ;;
       match ev' with
       | IoErr e => raise e
       | IoOk m' => set_world (with_files (fs_write p m' payload))
       end
   end)%py.

(** [with open(p, 'rb') as f: pickle.load(f)] *)
Definition pickle_load (p : Path) : Method SaveData :=
  (fs <- gets (fun s : Sys => files (snd s)) ;;
   match fs_lookup p fs with
   | None => raise (Exn OSError ("No such file or directory: " ++ str_path p))
   | Some f =>
       match f_content f with
       | Pickled d => ret d
       | JsonText _ => raise (Exn PickleError "invalid load key, '{'.")
       | Unreadable why => raise (Exn PickleError why)
       end
   end)%py.

(** [list(dir.glob(pre + "*" + suf))] on a directory that can be
    listed: the files of [dir] whose name matches, in the order of the
    listing. *)
Definition glob (dir pre suf : string) (fs : list File) : list File :=
  List.filter
    (fun f => String.eqb (parent (f_path f)) dir &&
              fnmatch_star pre suf (name (f_path f)))
    fs.

(** [max(fs, key=lambda x: x.stat().st_mtime)]: the first of the files
    with the greatest modification time.  A file of the listing carries
    the time [stat] reports for it; a [stat] that raises (a file gone
    since the listing, a dangling link) is outside this model. *)
Fixpoint max_from (best : File) (fs : list File) : File :=
  match fs with
  | [] => best
  | f :: fs' => max_from (if (f_mtime best <? f_mtime f)%Z then f else best) fs'
  end.

Definition max_mtime (fs : list File) : option File :=
  match fs with
  | [] => None
  | f :: fs' => Some (max_from f fs')
  end.

(** ** The class [ExperimentTemplate] *)

(** The methods a subclass supplies.  They are transformations of their
    argument that return a value or raise; they do not touch the
    attributes of the instance. *)
Record Hooks : Type := {
  validate_input : Any -> outcome bool;
  process_input : Any -> outcome Any;
  generate_output : Any -> outcome Any;
  validate_output : Any -> outcome bool
}.

(** The base class's own [validate_input] and [validate_output]. *)
Definition default_validate (x : Any) : outcome bool := Returns true.

Definition len {A} (l : list A) : Z := Z.of_nat (List.length l).

Definition save (filename : option string) : Method string :=
  (filename <- match filename with
               | Some f => ret f
               | None =>
                   timestamp <- datetime_now ;;
                   nm <- self_ experiment_name ;;
                   ret (nm ++ "_progress_" ++ strftime_stamp timestamp ++ ".pkl")
               end ;;
   dir <- self_ output_dir ;;
   let filepath := path_join dir filename in
   (* Update metadata *)
   now <- datetime_now ;;
   set_self (fun e =>
     with_metadata (dict_update
       [ ("last_save", PStr (isoformat now));
         ("current_iteration", PInt (current_iteration e));
         ("total_results", PInt (len (results e)));
         ("status", PStr "running") ]) e) ;;
   (* Prepare data to save *)
   e <- self_ (fun e => e) ;;
   let save_data :=
     {| sd_metadata := Some (metadata e);
        sd_results := Some (results e);
        sd_current_iteration := Some (current_iteration e);
        sd_experiment_name := Some (experiment_name e) |} in
   write_file filepath (Pickled save_data) ;;
   (* Also save a JSON version *)
   let json_filepath := with_suffix filepath ".json" in
   let json_data :=
     {| j_metadata := metadata e;
        j_current_iteration := current_iteration e;
        j_experiment_name := experiment_name e;
        j_results_count := len (results e) |} in
   write_file json_filepath (JsonText json_data) ;;
   print ("Progress saved to: " ++ str_path filepath) ;;
   ret (str_path filepath))%py.

Definition run_single (h : Hooks) (input_data : Any) : Method ResultRecord :=
  try_except_Exception
    (valid <- call (validate_input h input_data) ;;
     (if negb valid then raise (Exn ValueError "Input validation failed")
      else ret tt) ;;
     processed_input <- call (process_input h input_data) ;;
     output_data <- call (generate_output h processed_input) ;;
     valid_out <- call (validate_output h output_data) ;;
     (if negb valid_out then raise (Exn ValueError "Output validation failed")
      else ret tt) ;;
     it <- self_ current_iteration ;;
     now <- datetime_now ;;
     let result :=
       {| r_iteration := it;
          r_input := input_data;
          r_processed_input := Some processed_input;
          r_output := Some output_data;
          r_error := None;
          r_timestamp := isoformat now;
          r_status := "success" |} in
     set_self (with_results (fun rs => (rs ++ [result])%list)) ;;
     set_self (with_current_iteration (fun i => (i + 1)%Z)) ;;
     (* Auto-save if enabled *)
     auto <- self_ auto_save ;;
     (if auto then
        it' <- self_ current_iteration ;;
        interval <- self_ save_interval ;;
        r <- call (py_mod it' interval) ;;
        if (r =? 0)%Z then (save None ;; ret tt) else ret tt
      else ret tt) ;;
     ret result)%py
    (fun e =>
     it <- self_ current_iteration ;;
     now <- datetime_now ;;
     let error_result :=
       {| r_iteration := it;
          r_input := input_data;
          r_processed_input := None;
          r_output := None;
          r_error := Some (exn_str e);
          r_timestamp := isoformat now;
          r_status := "error" |} in
     set_self (with_results (fun rs => (rs ++ [error_result])%list)) ;;
     set_self (with_current_iteration (fun i => (i + 1)%Z)) ;;
     ret error_result)%py.

Definition _load_progress : Method bool :=
  (nm <- self_ experiment_name ;;
   dir <- self_ output_dir ;;
   fs <- gets (fun s : Sys => files (snd s)) ;;
   let save_files := glob dir (nm ++ "_progress_") ".pkl" fs in
   match max_mtime save_files with
   | None => ret false
   | Some latest =>
       let latest_file := f_path latest in
       try_except_Exception
         (save_data <- pickle_load latest_file ;;
          set_self (with_metadata (fun md => default md (sd_metadata save_data))) ;;
          set_self (with_results (fun _ => default [] (sd_results save_data))) ;;
          set_self (with_current_iteration
                      (fun _ => default 0%Z (sd_current_iteration save_data))) ;;
          print ("Loaded progress from: " ++ str_path latest_file) ;;
          it <- self_ current_iteration ;;
          print ("Resuming from iteration: " ++ str_int it) ;;
          ret true)
         (fun e =>
          print ("Failed to load progress from " ++ str_path latest_file ++
                 ": " ++ exn_str e) ;;
          ret false)
   end)%py.

(** The view [get_summary] returns.  Python's true division of two
    integers is taken as the exact quotient; the float Python returns
    is that quotient rounded to the nearest double. *)
Record Summary : Type := {
  s_experiment_name : string;
  s_current_iteration : Z;
  s_total_results : Z;
  s_successful_results : Z;
  s_error_results : Z;
  s_success_rate : Q;
  s_start_time : option pyval;
  s_last_save : option pyval;
  s_status : pyval
}.

Definition with_status (st : string) (rs : list ResultRecord) : list ResultRecord :=
  List.filter (fun r => String.eqb (r_status r) st) rs.

Definition get_summary (e : Experiment) : Summary :=
  let successful_results := with_status "success" (results e) in
  let error_results := with_status "error" (results e) in
  {| s_experiment_name := experiment_name e;
     s_current_iteration := current_iteration e;
     s_total_results := len (results e);
     s_successful_results := len successful_results;
     s_error_results := len error_results;
     s_success_rate :=
       match results e with
       | [] => 0%Q
       | _ :: _ =>
           Qmake (len successful_results) (Pos.of_nat (List.length (results e)))
       end;
     s_start_time := metadata e !! "start_time";
     s_last_save := metadata e !! "last_save";
     s_status := default (PStr "unknown") (metadata e !! "status") |}.

Definition reset : Method unit :=
  (set_self (with_current_iteration (fun _ => 0%Z)) ;;
   set_self (with_results (fun _ => [])) ;;
   now <- datetime_now ;;
   set_self (with_metadata (dict_update
     [ ("start_time", PStr (isoformat now));
       ("status", PStr "reset") ])) ;;
   print "Experiment state reset")%py.

Definition finish : Method unit :=
  (now <- datetime_now ;;
   set_self (fun e =>
     with_metadata (dict_update
       [ ("end_time", PStr (isoformat now));
         ("status", PStr "finished");
         ("total_iterations", PInt (current_iteration e)) ]) e) ;;
   nm <- self_ experiment_name ;;
   save (Some (nm ++ "_final.pkl")) ;;
   print "Experiment finished")%py.

Definition init_benchmark_dir : Method unit :=
  (dir <- self_ output_dir ;;
   set_self (with_benchmark_dir (path_join dir "benchmarks")) ;;
   mkdir (str_path (path_join dir "benchmarks")))%py.

Definition init_logging : Method unit :=
  (dir <- self_ output_dir ;;
   set_self (with_log_dir (path_join dir "logs")) ;;
   mkdir (str_path (path_join dir "logs")))%py.

(** The attributes as the constructor sets them before it looks for a
    checkpoint. *)
Definition fresh (experiment_name output_dir : string) (save_interval : Z)
  (auto_save : bool) (start_time : string) : Experiment :=
  {| experiment_name := experiment_name;
     output_dir := output_dir;
     save_interval := save_interval;
     auto_save := auto_save;
     current_iteration := 0;
     total_iterations := 0;
     benchmark_dir := None;
     log_dir := None;
     results := [];
     metadata :=
       dict_update
         [ ("experiment_name", PStr experiment_name);
           ("start_time", PStr start_time);
           ("status", PStr "initialized") ] ∅ |}.

(** The constructor: it returns the new instance, or raises and leaves
    none. *)
Definition __init__ (experiment_name output_dir : string) (save_interval : Z)
  (auto_save : bool) (w : World) : outcome Experiment * World :=
  let body : Method unit :=
    (mkdir output_dir ;;
     now <- datetime_now ;;
     set_self (fun _ =>
       fresh experiment_name output_dir save_interval auto_save (isoformat now)) ;;
     init_logging ;;
     init_benchmark_dir ;;
     _load_progress ;;
     ret tt)%py in
  match body (fresh experiment_name output_dir save_interval auto_save EmptyString, w) with
  | (Returns _, (self, w')) => (Returns self, w')
  | (Raises e, (_, w')) => (Raises e, w')
  end.

(** ** Vocabulary of the statements *)

(** A well-formed directory lists every path once. *)
Fixpoint unique_paths (fs : list File) : bool :=
  match fs with
  | [] => true
  | f :: fs' =>
      negb (existsb (fun g => path_eqb (f_path g) (f_path f)) fs') &&
      unique_paths fs'
  end.

Definition io_ok (ev : io_event) : bool :=
  match ev with IoOk _ => true | IoErr _ => false end.

(** The first error among the answers to the [n] requests made from
    request number [t] on. *)
Fixpoint first_write_error (w : World) (t n : nat) : option exn :=
  match n with
  | O => None
  | S n' =>
      match io w t with
      | IoErr ex => Some ex
      | IoOk _ => first_write_error w (S t) n'
      end
  end.

(** The three [mkdir] calls of the constructor succeed: they are its
    first, third and fourth request (the second reads the clock). *)
Definition mkdirs_succeed (w : World) : bool :=
  io_ok (io w (tick w)) && io_ok (io w (2 + tick w)) && io_ok (io w (3 + tick w)).

(** How often [save] reads the clock before it stamps ["last_save"]. *)
Definition save_clock_reads (filename : option string) : nat :=
  match filename with None => 1 | Some _ => 0 end.

(** The file name [save] writes to. *)
Definition save_filename (filename : option string) (e : Experiment) (w : World)
  : string :=
  match filename with
  | Some f => f
  | None =>
      experiment_name e ++ "_progress_" ++
      strftime_stamp (clock w (tick w)) ++ ".pkl"
  end.

(** The instance after the metadata update of [save] made at [now]. *)
Definition on_save (now : datetime) (e : Experiment) : Experiment :=
  with_metadata (dict_update
    [ ("last_save", PStr (isoformat now));
      ("current_iteration", PInt (current_iteration e));
      ("total_results", PInt (len (results e)));
      ("status", PStr "running") ]) e.

(** The dictionary [save] pickles for an instance. *)
Definition checkpoint (e : Experiment) : SaveData :=
  {| sd_metadata := Some (metadata e);
     sd_results := Some (results e);
     sd_current_iteration := Some (current_iteration e);
     sd_experiment_name := Some (experiment_name e) |}.

(** The files [_load_progress] chooses from. *)
Definition candidates (nm dir : string) (fs : list File) : list File :=
  glob dir (nm ++ "_progress_") ".pkl" fs.

(** Among the candidates, the file at [p] is strictly the newest. *)
Definition newest_checkpoint (nm dir : string) (p : Path) (fs : list File) : bool :=
  match fs_lookup p fs with
  | None => false
  | Some f =>
      forallb (fun g => path_eqb (f_path g) p || (f_mtime g <? f_mtime f)%Z)
              (candidates nm dir fs)
  end.

(** The instance after [_load_progress] took over the dictionary [d]. *)
Definition resumed (d : SaveData) (e : Experiment) : Experiment :=
  with_current_iteration (fun _ => default 0%Z (sd_current_iteration d))
    (with_results (fun _ => default [] (sd_results d))
       (with_metadata (fun md => default md (sd_metadata d)) e)).

(** The instance the constructor has built when it turns to the
    checkpoints. *)
Definition constructed (experiment_name output_dir : string) (save_interval : Z)
  (auto_save : bool) (start_time : string) : Experiment :=
  with_benchmark_dir (path_join output_dir "benchmarks")
    (with_log_dir (path_join output_dir "logs")
       (fresh experiment_name output_dir save_interval auto_save start_time)).

(** The instance after the metadata update of [finish] made at [now]. *)
Definition on_finish (now : datetime) (e : Experiment) : Experiment :=
  with_metadata (dict_update
    [ ("end_time", PStr (isoformat now));
      ("status", PStr "finished");
      ("total_iterations", PInt (current_iteration e)) ]) e.

(** The instance after the success branch has appended its record and
    counted. *)
Definition after_success (x processed out : Any) (now : datetime)
  (e : Experiment) : Experiment :=
  with_current_iteration (fun i => (i + 1)%Z)
    (with_results
       (fun rs => (rs ++ [ {| r_iteration := current_iteration e;
                              r_input := x;
                              r_processed_input := Some processed;
                              r_output := Some out;
                              r_error := None;
                              r_timestamp := isoformat now;
                              r_status := "success" |} ])%list) e).

(** The instance after the error branch has appended its record and
    counted. *)
Definition after_error (x : Any) (msg : string) (now : datetime)
  (e : Experiment) : Experiment :=
  with_current_iteration (fun i => (i + 1)%Z)
    (with_results
       (fun rs => (rs ++ [ {| r_iteration := current_iteration e;
                              r_input := x;
                              r_processed_input := None;
                              r_output := None;
                              r_error := Some msg;
                              r_timestamp := isoformat now;
                              r_status := "error" |} ])%list) e).

(** The state of an instance that resumed nothing. *)
Definition empty_state (e : Experiment) : Prop :=
  current_iteration e = 0%Z /\ results e = [] /\
  metadata e !! "status" = Some (PStr "initialized").

(** The state after [run_single] was called on each input in turn,
    whatever the calls returned or raised. *)
Definition run_each (h : Hooks) (inputs : list Any) (s : Sys) : Sys :=
  fold_left (fun s x => snd (run_single h x s)) inputs s.

End Template.

(** ** Concrete worlds, hooks and instances

    The inputs of the examples below; the raw inputs are integers. *)

Definition demo_clock (k : nat) : datetime :=
  {| year := 2024; month := 5; day := 17;
     hour := 9; minute := 30; second := k; microsecond := 0 |}.

(** Every write succeeds. *)
Definition calm_disk (k : nat) : io_event := IoOk (Z.of_nat k).

(** The directories can still be made; from then on every write fails. *)
Definition full_disk (k : nat) : io_event :=
  if Nat.ltb k 4 then IoOk (Z.of_nat k)
  else IoErr (Exn OSError "[Errno 28] No space left on device").

Definition world_of (fs : list (@File Z)) (disk : nat -> io_event) : @World Z :=
  {| files := fs; clock := demo_clock; io := disk; tick := 0; stdout := [] |}.

(** A subclass whose steps all succeed. *)
Definition doubling : @Hooks Z :=
  {| validate_input := default_validate;
     process_input := fun x => Returns (x + 1)%Z;
     generate_output := fun y => Returns (2 * y)%Z;
     validate_output := default_validate |}.

(** A subclass whose [process_input] raises an [Exception]. *)
Definition failing : @Hooks Z :=
  {| validate_input := default_validate;
     process_input := fun _ => Raises (Exn UserError "boom");
     generate_output := fun y => Returns (2 * y)%Z;
     validate_output := default_validate |}.

(** A subclass whose [generate_output] is interrupted from the keyboard. *)
Definition interrupted : @Hooks Z :=
  {| validate_input := default_validate;
     process_input := fun x => Returns (x + 1)%Z;
     generate_output := fun _ => Raises (Exn KeyboardInterrupt EmptyString);
     validate_output := default_validate |}.

(** The experiment "demo" right after its construction in the empty
    directory "out", with the world as the constructor left it. *)
Definition demo (disk : nat -> io_event) (save_interval : Z) (auto_save : bool)
  : @Sys Z :=
  (constructed "demo" "out" save_interval auto_save "2024-05-17T09:30:01",
   advance (advance (advance (advance (world_of [] disk))))).

(** Two checkpoints of "demo": the one whose name sorts last was written
    first. *)
Definition record_of (i x : Z) : @ResultRecord Z :=
  {| r_iteration := i; r_input := x;
     r_processed_input := Some (x + 1)%Z; r_output := Some (2 * (x + 1))%Z;
     r_error := None; r_timestamp := "2024-05-16T08:00:00";
     r_status := "success" |}.

Definition pickle_of (rs : list (@ResultRecord Z)) : @content Z :=
  Pickled {| sd_metadata := Some (dict_update [("status", PStr "running")] ∅);
             sd_results := Some rs;
             sd_current_iteration := Some (len rs);
             sd_experiment_name := Some "demo" |}.

Definition two_checkpoints : list (@File Z) :=
  [ {| f_path := path_join "out" "demo_progress_20250101_000000.pkl";
       f_mtime := 100;
       f_content := pickle_of [record_of 0 7; record_of 1 8; record_of 2 9] |};
    {| f_path := path_join "out" "demo_progress_20240101_000000.pkl";
       f_mtime := 200;
       f_content := pickle_of [record_of 0 7] |} ].

(** ** Names

    The model keeps a path as a directory and a name and matches names
    literally.  That is what [pathlib] does for names that are a single
    path component and hold no pattern character; the statements that
    depend on it say so with the predicates below. *)

Fixpoint all_chars (ok : ascii -> bool) (s : string) : bool :=
  match s with
  | EmptyString => true
  | String c rest => ok c && all_chars ok rest
  end.

Definition is_separator (c : ascii) : bool := Ascii.eqb c "/".

(** The characters [Path.glob] reads as pattern syntax. *)
Definition is_pattern_char (c : ascii) : bool :=
  Ascii.eqb c "*" || Ascii.eqb c "?" || Ascii.eqb c "[".

Definition no_separator (s : string) : bool :=
  all_chars (fun c => negb (is_separator c)) s.

(** An experiment name that [Path(output_dir) / f"{name}_..."] keeps
    inside the output directory and that the pattern
    [f"{name}_progress_*.pkl"] matches letter by letter. *)
Definition plain_name (s : string) : bool :=
  all_chars (fun c => negb (is_separator c || is_pattern_char c)) s.

(** A file name that is one path component: not empty, no separator,
    neither [.] nor [..]. *)
Definition single_component (s : string) : bool :=
  no_separator s && negb (String.eqb s EmptyString) &&
  negb (String.eqb s ".") && negb (String.eqb s "..").

(** ** Further vocabulary: the records, the hooks, the constructor *)

Section MoreVocabulary.

Context {Any : Type}.

(** A file of the directory [dir] whose name is
    [{nm}_progress_{anything}.pkl]. *)
Definition is_progress_checkpoint (nm dir : string) (f : @File Any) : Prop :=
  parent (f_path f) = dir /\
  exists stamp, name (f_path f) = nm ++ "_progress_" ++ stamp ++ ".pkl".

(** Every entry of the listing is named by a single path component, as
    the entries of a directory are. *)
Definition well_named (fs : list (@File Any)) : bool :=
  forallb (fun f => single_component (name (f_path f))) fs.

(** The first error among the answers to the three [mkdir] calls of the
    constructor. *)
Definition first_mkdir_error (w : @World Any) : option exn :=
  match io w (tick w) with
  | IoErr ex => Some ex
  | IoOk _ =>
      match io w (2 + tick w) with
      | IoErr ex => Some ex
      | IoOk _ =>
          match io w (3 + tick w) with
          | IoErr ex => Some ex
          | IoOk _ => None
          end
      end
  end.

(** The entry the error branch of [run_single] appends and returns. *)
Definition error_record (x : Any) (msg : string) (now : datetime)
  (e : @Experiment Any) : @ResultRecord Any :=
  {| r_iteration := current_iteration e;
     r_input := x;
     r_processed_input := None;
     r_output := None;
     r_error := Some msg;
     r_timestamp := isoformat now;
     r_status := "error" |}.

(** The entry the success branch of [run_single] appends and returns. *)
Definition success_record (x processed out : Any) (now : datetime)
  (e : @Experiment Any) : @ResultRecord Any :=
  {| r_iteration := current_iteration e;
     r_input := x;
     r_processed_input := Some processed;
     r_output := Some out;
     r_error := None;
     r_timestamp := isoformat now;
     r_status := "success" |}.

(** Every entry carries its own position as ["iteration"]. *)
Definition numbered (rs : list (@ResultRecord Any)) : Prop :=
  List.map r_iteration rs = List.map Z.of_nat (seq 0 (List.length rs)).

(** Every entry has one of the two statuses [run_single] writes. *)
Definition statuses_known (rs : list (@ResultRecord Any)) : bool :=
  forallb (fun r => String.eqb (r_status r) "success" ||
                    String.eqb (r_status r) "error") rs.

(** One of the four steps of [run_single], taken in the order of the
    source, raises [ex]; the steps before it went through. *)
Inductive step_raises (h : @Hooks Any) (x : Any) (ex : exn) : Prop :=
| validate_input_raises :
    validate_input h x = Raises ex -> step_raises h x ex
| process_input_raises :
    validate_input h x = Returns true ->
    process_input h x = Raises ex -> step_raises h x ex
| generate_output_raises (processed : Any) :
    validate_input h x = Returns true ->
    process_input h x = Returns processed ->
    generate_output h processed = Raises ex -> step_raises h x ex
| validate_output_raises (processed out : Any) :
    validate_input h x = Returns true ->
    process_input h x = Returns processed ->
    generate_output h processed = Returns out ->
    validate_output h out = Raises ex -> step_raises h x ex.

(** All four steps go through on [x]. *)
Definition steps_succeed (h : @Hooks Any) (x : Any) : Prop :=
  exists processed out,
    validate_input h x = Returns true /\
    process_input h x = Returns processed /\
    generate_output h processed = Returns out /\
    validate_output h out = Returns true.

End MoreVocabulary.

(** ** The module [logging] *)

(** The two module globals. *)
Record LogState : Type := { Showlog : bool; VISIBLE_TAGS : list string }.

(** The module as it is right after import. *)
Definition logging_imported : LogState :=
  {| Showlog := false; VISIBLE_TAGS := [] |}.

Definition TOGGLE_SHOWLOG (on : bool) (g : LogState) : LogState :=
  {| Showlog := on; VISIBLE_TAGS := VISIBLE_TAGS g |}.

Definition REG_TAG (tag : string) (g : LogState) : LogState :=
  {| Showlog := Showlog g; VISIBLE_TAGS := (VISIBLE_TAGS g ++ [tag])%list |}.

Definition newline : ascii := ascii_of_nat 10.

(** [message.split("\n")]: the pieces between the line breaks; there is
    always at least one piece. *)
Fixpoint split_lines (message : string) : list string :=
  match message with
  | EmptyString => [EmptyString]
  | String c rest =>
      if Ascii.eqb c newline then EmptyString :: split_lines rest
      else
        match split_lines rest with
        | line :: lines => String c line :: lines
        | [] => [String c EmptyString]
        end
  end.

(** The number of line breaks in a message. *)
Fixpoint line_breaks (message : string) : nat :=
  match message with
  | EmptyString => 0
  | String c rest =>
      if Ascii.eqb c newline then S (line_breaks rest) else line_breaks rest
  end.

(** [sourced_print]: the lines it prints, in order. *)
Definition sourced_print (message source : string) : list string :=
  List.map (fun line => "[" ++ source ++ "] " ++ line) (split_lines message).

(** The name of the calling function, or the empty string when there is
    no calling frame; the frame is an argument here. *)
Definition source_of (caller : option string) : string :=
  match caller with
  | Some co_name => co_name
  | None => EmptyString
  end.

(** [tag in VISIBLE_TAGS] *)
Definition tag_visible (tag : string) (g : LogState) : bool :=
  existsb (String.eqb tag) (VISIBLE_TAGS g).

(** [LOG] and [LOG_TAG]: stdout before, stdout after. *)
Definition LOG (message : string) (caller : option string) (g : LogState)
  (out : list string) : list string :=
  if Showlog g then (out ++ sourced_print message (source_of caller))%list
  else out.

Definition LOG_TAG (message tag : string) (caller : option string)
  (g : LogState) (out : list string) : list string :=
  if Showlog g && tag_visible tag g
  then (out ++ sourced_print message (source_of caller))%list
  else out.

(** ** More concrete inputs *)

(** A subclass that rejects every input. *)
Definition rejecting_input : @Hooks Z :=
  {| validate_input := fun _ => Returns false;
     process_input := fun x => Returns (x + 1)%Z;
     generate_output := fun y => Returns (2 * y)%Z;
     validate_output := default_validate |}.

(** A subclass that rejects every output. *)
Definition rejecting_output : @Hooks Z :=
  {| validate_input := default_validate;
     process_input := fun x => Returns (x + 1)%Z;
     generate_output := fun y => Returns (2 * y)%Z;
     validate_output := fun _ => Returns false |}.

(** A disk on which the pickle can be opened but not written: request 7
    is the dump of the first [save()] of [demo]. *)
Definition flaky_disk (k : nat) : io_event :=
  if Nat.eqb k 7 then IoErr (Exn OSError "[Errno 5] Input/output error")
  else IoOk (Z.of_nat k).

(** A disk that lets the output directory be made and refuses the
    [logs] directory under it. *)
Definition quota_disk (k : nat) : io_event :=
  if Nat.eqb k 2 then IoErr (Exn OSError "[Errno 122] Disk quota exceeded: 'out/logs'")
  else IoOk (Z.of_nat k).

(** A disk that stamps every write with the same modification time, as
    a file system does for writes that fall into one unit of its
    timestamps. *)
Definition coarse_disk : nat -> io_event := fun _ => IoOk 8%Z.

(** A clock that stays within one second. *)
Definition one_second (k : nat) : datetime :=
  {| year := 2024; month := 5; day := 17;
     hour := 9; minute := 30; second := 0; microsecond := k |}.

(** [demo] with that clock, auto-save off. *)
Definition demo_in_one_second : @Sys Z :=
  (constructed "demo" "out" 1 false "2024-05-17T09:30:00.000001",
   {| files := []; clock := one_second; io := calm_disk; tick := 4;
      stdout := [] |}).

(** * Properties *)

(** ** Strings and file names *)

Lemma append_nil (t : string) : EmptyString ++ t = t.
Proof. reflexivity. Qed.

Lemma append_cons (a : ascii) (s t : string) :
  String a s ++ t = String a (s ++ t).
Proof. reflexivity. Qed.

Ltac string_ind s :=
  induction s as [|? s ?IH];
  rewrite ?append_nil, ?append_cons; cbn [String.length substring String.prefix rfind Nat.add].

Lemma length_append (s t : string) :
  String.length (s ++ t) = String.length s + String.length t.
Proof. string_ind s; [reflexivity | f_equal; exact IH]. Qed.

Lemma append_assoc (s t u : string) : (s ++ t) ++ u = s ++ (t ++ u).
Proof. string_ind s; [reflexivity | f_equal; exact IH]. Qed.

Lemma substring_all (s : string) : substring 0 (String.length s) s = s.
Proof. string_ind s; [reflexivity | f_equal; exact IH]. Qed.

Lemma substring_append_left (s t : string) :
  substring 0 (String.length s) (s ++ t) = s.
Proof.
  string_ind s.
  - destruct t; reflexivity.
  - f_equal; exact IH.
Qed.

Lemma substring_append_right (s t : string) (n : nat) :
  substring (String.length s) n (s ++ t) = substring 0 n t.
Proof. string_ind s; [reflexivity | exact IH]. Qed.

Lemma prefix_append (s t : string) : String.prefix s (s ++ t) = true.
Proof.
  string_ind s.
  - destruct t; reflexivity.
  - destruct (ascii_dec _ _) as [_|Hne]; [exact IH | now destruct Hne].
Qed.

Lemma rfind_append (c : ascii) (s t : string) :
  rfind c (s ++ t) =
  match rfind c t with
  | Some i => Some (String.length s + i)
  | None => rfind c s
  end.
Proof.
  string_ind s.
  - destruct (rfind c t); reflexivity.
  - rewrite IH. destruct (rfind c t); reflexivity.
Qed.

Lemma ends_with_append (s suf : string) : ends_with suf (s ++ suf) = true.
Proof.
  unfold ends_with. rewrite length_append.
  replace (String.length s + String.length suf - String.length suf)
    with (String.length s) by lia.
  rewrite substring_append_right, substring_all, String.eqb_refl.
  rewrite andb_true_r. apply Nat.leb_le. lia.
Qed.

(** The name [save] builds when it is given none is matched by the
    pattern [_load_progress] looks for. *)
Lemma progress_name_matches (nm stamp : string) :
  fnmatch_star (nm ++ "_progress_") ".pkl"
    (nm ++ "_progress_" ++ stamp ++ ".pkl") = true.
Proof.
  unfold fnmatch_star.
  rewrite <- (append_assoc nm "_progress_" (stamp ++ ".pkl")).
  rewrite prefix_append.
  rewrite <- (append_assoc (nm ++ "_progress_") stamp ".pkl").
  rewrite ends_with_append.
  rewrite !length_append. simpl String.length.
  rewrite !andb_true_r. apply Nat.leb_le. lia.
Qed.

(** A name that ends in [.pkl] gets a sibling of another name. *)
Lemma with_suffix_pkl (dir stem : string) :
  stem <> EmptyString ->
  with_suffix (path_join dir (stem ++ ".pkl")) ".json" =
  path_join dir (stem ++ ".json").
Proof.
  intros Hne. unfold with_suffix, path_join, suffix. cbn [name parent].
  rewrite rfind_append. cbn [rfind Ascii.eqb Bool.eqb].
  assert (Hlen : 0 < String.length stem) by (destruct stem; simpl; [congruence | lia]).
  rewrite length_append. cbn [String.length].
  replace (Nat.ltb 0 (String.length stem + 0)) with true
    by (symmetry; apply Nat.ltb_lt; lia).
  replace (Nat.ltb (String.length stem + 0) (String.length stem + 4 - 1)) with true
    by (symmetry; apply Nat.ltb_lt; lia).
  cbn [andb].
  replace (String.length stem + 0) with (String.length stem) by lia.
  rewrite substring_append_right.
  replace (String.length stem + 4 - String.length stem) with 4 by lia.
  cbn [substring String.length].
  replace (String.length stem + 4 - 4) with (String.length stem) by lia.
  now rewrite substring_append_left.
Qed.

Lemma json_sibling_differs (dir stem : string) :
  path_join dir (stem ++ ".json") <> path_join dir (stem ++ ".pkl").
Proof.
  intros H. apply (f_equal (fun p => String.length (name p))) in H.
  cbn [name path_join] in H. rewrite !length_append in H. simpl in H. lia.
Qed.

Lemma path_eqb_eq (p q : Path) : path_eqb p q = true <-> p = q.
Proof.
  unfold path_eqb. destruct p as [d n], q as [d' n']. cbn [parent name].
  rewrite andb_true_iff, !String.eqb_eq. split.
  - intros [-> ->]. reflexivity.
  - intros H. injection H as -> ->. split; reflexivity.
Qed.

Lemma path_eqb_refl (p : Path) : path_eqb p p = true.
Proof. now apply path_eqb_eq. Qed.

Lemma path_eqb_neq (p q : Path) : path_eqb p q = false <-> p <> q.
Proof.
  rewrite <- path_eqb_eq. destruct (path_eqb p q); split; congruence.
Qed.

(** ** What the pattern [pre*suf] matches *)

Lemma prefix_decompose (p s : string) :
  String.prefix p s = true -> exists rest, s = p ++ rest.
Proof.
  revert s. induction p as [|a p IH]; intros s H.
  - exists s. reflexivity.
  - destruct s as [|b s]; cbn [String.prefix] in H; [discriminate|].
    destruct (ascii_dec a b) as [<- | _]; [|discriminate].
    destruct (IH s H) as [rest ->]. exists rest. reflexivity.
Qed.

Lemma substring_shift (s t : string) (k n : nat) :
  substring (String.length s + k) n (s ++ t) = substring k n t.
Proof.
  induction s as [|a s IH]; rewrite ?append_nil, ?append_cons;
    cbn [String.length Nat.add substring]; [reflexivity | exact IH].
Qed.

Lemma substring_split (s : string) (n : nat) :
  n <= String.length s ->
  s = substring 0 n s ++ substring n (String.length s - n) s.
Proof.
  revert n. induction s as [|a s IH]; intros n Hn; cbn [String.length] in *.
  - destruct n; [reflexivity | lia].
  - destruct n as [|n]; cbn [substring Nat.sub].
    + rewrite append_nil. f_equal. symmetry. apply substring_all.
    + rewrite append_cons. f_equal. apply IH. lia.
Qed.

Lemma ends_with_decompose (suf s : string) :
  ends_with suf s = true -> exists front, s = front ++ suf.
Proof.
  unfold ends_with. intros [Hlen Heq]%andb_true_iff.
  apply Nat.leb_le in Hlen. apply String.eqb_eq in Heq.
  exists (substring 0 (String.length s - String.length suf) s).
  rewrite (substring_split s (String.length s - String.length suf)) at 1 by lia.
  f_equal. rewrite <- Heq at 3. f_equal. lia.
Qed.

(** The pattern matches exactly the names that begin with [pre], end
    with [suf], and have room for both. *)
Lemma fnmatch_star_spec (pre suf s : string) :
  fnmatch_star pre suf s = true <-> exists mid, s = pre ++ mid ++ suf.
Proof.
  split.
  - unfold fnmatch_star. intros [[Hlen Hpre]%andb_true_iff Hend]%andb_true_iff.
    apply Nat.leb_le in Hlen.
    destruct (prefix_decompose _ _ Hpre) as [rest ->].
    rewrite length_append in Hlen.
    assert (Hrest : ends_with suf rest = true).
    { unfold ends_with in *. apply andb_true_iff in Hend. destruct Hend as [_ Heq].
      apply andb_true_iff. split; [apply Nat.leb_le; lia|].
      rewrite length_append in Heq.
      replace (String.length pre + String.length rest - String.length suf)
        with (String.length pre + (String.length rest - String.length suf))
        in Heq by lia.
      now rewrite substring_shift in Heq. }
    destruct (ends_with_decompose _ _ Hrest) as [mid ->]. now exists mid.
  - intros [mid ->]. unfold fnmatch_star.
    rewrite prefix_append, <- append_assoc, ends_with_append.
    rewrite !length_append, !andb_true_r. apply Nat.leb_le. lia.
Qed.

Section Properties.

Context {Any : Type}.
Implicit Types (e : @Experiment Any) (w : @World Any) (f g : @File Any)
  (fs : list (@File Any)) (c : @content Any) (p q : Path).

(** ** The directory *)

Lemma fs_lookup_Some p fs f :
  fs_lookup p fs = Some f -> In f fs /\ f_path f = p.
Proof.
  induction fs as [|g fs IH]; cbn [fs_lookup]; [discriminate|].
  destruct (path_eqb (f_path g) p) eqn:E.
  - intros [= ->]. split; [now left | now apply path_eqb_eq].
  - intros H. destruct (IH H). split; [now right | assumption].
Qed.

Lemma fs_lookup_unique fs f :
  unique_paths fs = true -> In f fs -> fs_lookup (f_path f) fs = Some f.
Proof.
  induction fs as [|g fs IH]; cbn [unique_paths fs_lookup In]; [tauto|].
  intros [Hg Hu]%andb_true_iff [-> | Hin].
  - now rewrite path_eqb_refl.
  - destruct (path_eqb (f_path g) (f_path f)) eqn:E; [|now apply IH].
    apply negb_true_iff in Hg.
    assert (existsb (fun g0 => path_eqb (f_path g0) (f_path g)) fs = true); [|congruence].
    apply existsb_exists. exists f. split; [assumption|].
    apply path_eqb_eq. apply path_eqb_eq in E. congruence.
Qed.

Lemma fs_lookup_write_eq p m c fs :
  fs_lookup p (fs_write p m c fs) =
  Some {| f_path := p; f_mtime := m; f_content := c |}.
Proof.
  induction fs as [|f fs IH]; cbn [fs_write fs_lookup f_path].
  - now rewrite path_eqb_refl.
  - destruct (path_eqb (f_path f) p) eqn:E; cbn [fs_lookup f_path].
    + now rewrite path_eqb_refl.
    + now rewrite E.
Qed.

Lemma fs_lookup_write_ne p q m c fs :
  p <> q -> fs_lookup q (fs_write p m c fs) = fs_lookup q fs.
Proof.
  intros Hne. induction fs as [|f fs IH]; cbn [fs_write fs_lookup f_path].
  - apply path_eqb_neq in Hne. now rewrite Hne.
  - destruct (path_eqb (f_path f) p) eqn:E; cbn [fs_lookup f_path].
    + apply path_eqb_eq in E. rewrite E.
      apply path_eqb_neq in Hne. now rewrite Hne.
    + now rewrite IH.
Qed.

Lemma existsb_fs_write p q m c fs :
  p <> q ->
  existsb (fun g => path_eqb (f_path g) q) (fs_write p m c fs) =
  existsb (fun g => path_eqb (f_path g) q) fs.
Proof.
  intros Hne. apply path_eqb_neq in Hne.
  induction fs as [|f fs IH]; cbn [fs_write existsb f_path].
  - now rewrite Hne.
  - destruct (path_eqb (f_path f) p) eqn:E; cbn [existsb f_path].
    + apply path_eqb_eq in E. rewrite E. now rewrite Hne.
    + now rewrite IH.
Qed.

Lemma unique_paths_write p m c fs :
  unique_paths fs = true -> unique_paths (fs_write p m c fs) = true.
Proof.
  induction fs as [|f fs IH]; cbn [fs_write unique_paths]; [reflexivity|].
  intros [Hf Hu]%andb_true_iff.
  destruct (path_eqb (f_path f) p) eqn:E; cbn [unique_paths f_path].
  - apply path_eqb_eq in E. rewrite <- E, Hf, Hu. reflexivity.
  - rewrite (IH Hu), andb_true_r.
    rewrite existsb_fs_write; [assumption|].
    apply path_eqb_neq in E. congruence.
Qed.

(** ** The newest file *)

Lemma max_from_In f fs : max_from f fs = f \/ In (max_from f fs) fs.
Proof.
  revert f. induction fs as [|g fs IH]; intros f; cbn [max_from In]; [now left|].
  destruct (IH (if (f_mtime f <? f_mtime g)%Z then g else f)) as [H | H].
  - rewrite H. destruct (f_mtime f <? f_mtime g)%Z; [right; now left | now left].
  - right. now right.
Qed.

Lemma max_from_ge f fs :
  (f_mtime f <= f_mtime (max_from f fs))%Z /\
  forall g, In g fs -> (f_mtime g <= f_mtime (max_from f fs))%Z.
Proof.
  revert f. induction fs as [|h fs IH]; intros f; cbn [max_from In].
  - split; [lia | tauto].
  - destruct (IH (if (f_mtime f <? f_mtime h)%Z then h else f)) as [H1 H2].
    destruct (Z.ltb_spec (f_mtime f) (f_mtime h)); split; try lia.
    + intros g [<- | Hin]; [assumption | now apply H2].
    + intros g [<- | Hin]; [lia | now apply H2].
Qed.

(** [max] yields one of the files, and none of them is newer. *)
Lemma max_mtime_latest fs f :
  max_mtime fs = Some f ->
  In f fs /\ forall g, In g fs -> (f_mtime g <= f_mtime f)%Z.
Proof.
  destruct fs as [|h fs]; cbn [max_mtime]; [discriminate|].
  intros [= <-]. split.
  - destruct (max_from_In h fs) as [-> | H]; [now left | now right].
  - destruct (max_from_ge h fs) as [H1 H2].
    intros g [<- | Hin]; [assumption | now apply H2].
Qed.

Lemma max_mtime_None fs : max_mtime fs = None <-> fs = [].
Proof. destruct fs; cbn [max_mtime]; split; congruence. Qed.

Lemma unique_paths_filter (keep : File -> bool) fs :
  unique_paths fs = true -> unique_paths (List.filter keep fs) = true.
Proof.
  induction fs as [|f fs IH]; cbn [List.filter unique_paths]; [reflexivity|].
  intros [Hf Hu]%andb_true_iff.
  destruct (keep f); cbn [unique_paths]; [|now apply IH].
  rewrite (IH Hu), andb_true_r.
  apply negb_true_iff. apply negb_true_iff in Hf.
  destruct (existsb _ (List.filter keep fs)) eqn:E; [|reflexivity].
  apply existsb_exists in E. destruct E as [g [Hin Hg]].
  apply filter_In in Hin. destruct Hin as [Hin _].
  rewrite <- Hf. symmetry. apply existsb_exists. now exists g.
Qed.

(** A file strictly newer than all the others is the one [max] yields. *)
Lemma max_mtime_newest fs f :
  unique_paths fs = true ->
  In f fs ->
  (forall g, In g fs -> f_path g <> f_path f -> (f_mtime g < f_mtime f)%Z) ->
  max_mtime fs = Some f.
Proof.
  intros Hu Hin Hnew.
  destruct (max_mtime fs) as [h|] eqn:E.
  - destruct (max_mtime_latest _ _ E) as [Hh Hle].
    specialize (Hle f Hin).
    destruct (path_eqb (f_path h) (f_path f)) eqn:Ep.
    + apply path_eqb_eq in Ep.
      pose proof (fs_lookup_unique fs h Hu Hh) as H1.
      pose proof (fs_lookup_unique fs f Hu Hin) as H2.
      rewrite Ep in H1. congruence.
    + apply path_eqb_neq in Ep. specialize (Hnew h Hh Ep). lia.
  - apply max_mtime_None in E. subst fs. destruct Hin.
Qed.

(** ** Running a method by hand *)

Ltac step :=
  unfold write_file, pickle_load, mkdir, print, next_io, datetime_now,
    set_world, set_self, self_, try_except_Exception, call, modify, gets,
    raise, ret, bind;
  cbn [fst snd tick advance with_files with_stdout files clock io stdout
       with_metadata with_results with_current_iteration with_benchmark_dir
       with_log_dir experiment_name output_dir save_interval auto_save
       current_iteration total_iterations benchmark_dir log_dir results
       metadata exn_cls exn_str Nat.add negb].

Ltac io_cases :=
  step;
  repeat (match goal with
          | |- context [match io ?w ?t with _ => _ end] =>
              destruct (io w t) eqn:?
          end; step).

Ltac dict_lookup :=
  unfold dict_update; cbn [fold_left fst snd];
  repeat (rewrite lookup_insert_eq || (rewrite lookup_insert_ne by done));
  try done.

(** ** [save] *)

(** Whatever happens to the files, [save] changes the instance in one
    way: the metadata update. *)
Lemma save_self fn e w :
  fst (snd (save fn (e, w))) = on_save (clock w (save_clock_reads fn + tick w)) e.
Proof. unfold save, on_save. destruct fn; io_cases; reflexivity. Qed.

Lemma save_oracle fn e w :
  clock (snd (snd (save fn (e, w)))) = clock w /\
  io (snd (snd (save fn (e, w)))) = io w.
Proof. unfold save. destruct fn; io_cases; split; reflexivity. Qed.

Lemma on_save_status now e :
  metadata (on_save now e) !! "status" = Some (PStr "running").
Proof. unfold on_save. step. dict_lookup. Qed.

Lemma on_save_last_save now e :
  metadata (on_save now e) !! "last_save" = Some (PStr (isoformat now)).
Proof. unfold on_save. step. dict_lookup. Qed.

(** [save] raises exactly the first error of its four write requests
    (open and dump of the pickle, open and dump of the summary). *)
Lemma save_outcome fn e w :
  fst (save fn (e, w)) =
  match first_write_error w (save_clock_reads fn + 1 + tick w) 4 with
  | Some ex => Raises ex
  | None => Returns (str_path (path_join (output_dir e) (save_filename fn e w)))
  end.
Proof.
  unfold save, save_filename.
  destruct fn; cbn [first_write_error save_clock_reads Nat.add]; io_cases;
    reflexivity.
Qed.

(** The files after a [save] that returned. *)
Lemma save_returns_files fn e w path s' :
  save fn (e, w) = (Returns path, s') ->
  let p := path_join (output_dir e) (save_filename fn e w) in
  exists m1 m2 m3 m4 : Z,
    files (snd s') =
    fs_write (with_suffix p ".json") m4
      (JsonText {| j_metadata := metadata (fst s');
                   j_current_iteration := current_iteration (fst s');
                   j_experiment_name := experiment_name (fst s');
                   j_results_count := len (results (fst s')) |})
      (fs_write (with_suffix p ".json") m3 (Unreadable "Ran out of input")
         (fs_write p m2 (Pickled (checkpoint (fst s')))
            (fs_write p m1 (Unreadable "Ran out of input") (files w)))).
Proof.
  unfold save, save_filename, checkpoint.
  destruct fn; io_cases; intros [= <- <-]; cbn [fst snd files];
    do 4 eexists; reflexivity.
Qed.

(** After a [save] that returned, the pickle of the instance is on disk
    under the name chosen, provided that name ends in [.pkl]. *)
Lemma save_returns_checkpoint fn e w path s' stem :
  save fn (e, w) = (Returns path, s') ->
  save_filename fn e w = stem ++ ".pkl" ->
  stem <> EmptyString ->
  exists m : Z,
    fs_lookup (path_join (output_dir e) (stem ++ ".pkl")) (files (snd s')) =
    Some {| f_path := path_join (output_dir e) (stem ++ ".pkl");
            f_mtime := m;
            f_content := Pickled (checkpoint (fst s')) |}.
Proof.
  intros Hsave Hname Hstem.
  destruct (save_returns_files _ _ _ _ _ Hsave) as (m1 & m2 & m3 & m4 & Hfiles).
  rewrite Hname in Hfiles. rewrite with_suffix_pkl in Hfiles by assumption.
  exists m2. rewrite Hfiles.
  rewrite !fs_lookup_write_ne by apply json_sibling_differs.
  apply fs_lookup_write_eq.
Qed.

Lemma save_returns_unique fn e w path s' :
  save fn (e, w) = (Returns path, s') ->
  unique_paths (files w) = true -> unique_paths (files (snd s')) = true.
Proof.
  intros Hsave Hu.
  destruct (save_returns_files _ _ _ _ _ Hsave) as (m1 & m2 & m3 & m4 & Hfiles).
  rewrite Hfiles. now repeat apply unique_paths_write.
Qed.

(** ** [finish] *)

Lemma finish_self e w :
  fst (snd (finish (e, w))) =
  on_save (clock w (S (tick w))) (on_finish (clock w (tick w)) e).
Proof.
  unfold finish, on_finish. step.
  match goal with
  | |- context [save ?fn ?s] =>
      pose proof (save_self fn (fst s) (snd s)) as H;
      cbn [fst snd] in H; destruct (save fn s) as [[path|ex] [e' w']]
  end; step; cbn [fst snd save_clock_reads Nat.add tick advance clock] in H;
    exact H.
Qed.

Lemma finish_outcome e w :
  fst (finish (e, w)) =
  match first_write_error w (2 + tick w) 4 with
  | Some ex => Raises ex
  | None => Returns tt
  end.
Proof.
  unfold finish. step.
  match goal with
  | |- context [save ?fn ?s] =>
      pose proof (save_outcome fn (fst s) (snd s)) as H;
      cbn [fst snd] in H; destruct (save fn s) as [[path|ex] [e' w']]
  end; step;
    cbn [fst snd save_clock_reads Nat.add tick advance clock io
         first_write_error] in *;
    repeat match goal with
           | |- context [match io ?w' ?t with _ => _ end] => destruct (io w' t)
           end;
    congruence.
Qed.

(** ** [_load_progress] *)

Lemma load_none e w :
  candidates (experiment_name e) (output_dir e) (files w) = [] ->
  _load_progress (e, w) = (Returns false, (e, w)).
Proof.
  intros H. unfold _load_progress. step. unfold candidates in H.
  rewrite H. reflexivity.
Qed.

Lemma load_pickled e w f g d :
  max_mtime (candidates (experiment_name e) (output_dir e) (files w)) = Some f ->
  fs_lookup (f_path f) (files w) = Some g ->
  f_content g = Pickled d ->
  fst (_load_progress (e, w)) = Returns true /\
  fst (snd (_load_progress (e, w))) = resumed d e /\
  files (snd (snd (_load_progress (e, w)))) = files w.
Proof.
  intros Hmax Hlook Hc. unfold _load_progress. step. unfold candidates in Hmax.
  rewrite Hmax. step. rewrite Hlook, Hc. step. repeat split; reflexivity.
Qed.

Lemma load_unreadable e w f g :
  max_mtime (candidates (experiment_name e) (output_dir e) (files w)) = Some f ->
  fs_lookup (f_path f) (files w) = Some g ->
  (forall d, f_content g <> Pickled d) ->
  exists why,
    _load_progress (e, w) =
    (Returns false,
     (e, with_stdout
           (fun out => app out ["Failed to load progress from " ++
                                str_path (f_path f) ++ ": " ++ why]) w)).
Proof.
  intros Hmax Hlook Hc. unfold _load_progress. step. unfold candidates in Hmax.
  rewrite Hmax. step. rewrite Hlook.
  destruct (f_content g) as [d|j|why] eqn:E; step.
  - now destruct (Hc d).
  - eexists. reflexivity.
  - eexists. reflexivity.
Qed.

(** [_load_progress] never raises; when it reports that nothing was
    loaded, the instance is as it was; it writes nothing. *)
Lemma load_total e w :
  exists b s',
    _load_progress (e, w) = (Returns b, s') /\
    (b = false -> fst s' = e) /\
    files (snd s') = files w.
Proof.
  unfold _load_progress. step.
  destruct (max_mtime _) as [f|]; step.
  - destruct (fs_lookup _ _) as [g|]; step.
    + destruct (f_content g); step; do 2 eexists;
        (split; [reflexivity | split; [try discriminate; reflexivity | reflexivity]]).
    + do 2 eexists. split; [reflexivity | split; reflexivity].
  - do 2 eexists. split; [reflexivity | split; reflexivity].
Qed.

(** ** The constructor *)

Lemma init_returns nm dir si auto w :
  mkdirs_succeed w = true ->
  exists b e' w',
    _load_progress
      (constructed nm dir si auto (isoformat (clock w (S (tick w)))),
       advance (advance (advance (advance w)))) = (Returns b, (e', w')) /\
    __init__ nm dir si auto w = (Returns e', w').
Proof.
  intros H. unfold mkdirs_succeed in H. cbn [Nat.add] in H.
  apply andb_true_iff in H. destruct H as [H H3].
  apply andb_true_iff in H. destruct H as [H1 H2].
  destruct (load_total
              (constructed nm dir si auto (isoformat (clock w (S (tick w)))))
              (advance (advance (advance (advance w)))))
    as (b & [e' w'] & Hload & _).
  exists b, e', w'. split; [exact Hload|].
  unfold __init__, init_logging, init_benchmark_dir. step.
  destruct (io w (tick w)); [|discriminate]. step.
  destruct (io w (S (S (tick w)))); [|discriminate]. step.
  destruct (io w (S (S (S (tick w))))); [|discriminate]. step.
  unfold constructed in Hload.
  change (output_dir (fresh nm dir si auto (isoformat (clock w (S (tick w))))))
    with dir.
  rewrite Hload. reflexivity.
Qed.

(** ** [run_single] *)

Ltac save_case :=
  match goal with
  | |- context [save None ?s] =>
      let H := fresh "Hself" in
      let Hs := fresh "Hsave" in
      pose proof (save_self None (fst s) (snd s)) as H;
      cbn [fst snd] in H;
      destruct (save None s) as [[?path | ?ex] [?e' ?w']] eqn:Hs;
      cbn [fst snd] in H; subst
  end.

Ltac run_cases :=
  unfold run_single, py_mod; step;
  repeat (first
    [ match goal with
      | |- context [match validate_input ?h ?x with _ => _ end] =>
          destruct (validate_input h x) as [[|] | ?] eqn:?
      | |- context [match process_input ?h ?x with _ => _ end] =>
          destruct (process_input h x) as [? | ?] eqn:?
      | |- context [match generate_output ?h ?x with _ => _ end] =>
          destruct (generate_output h x) as [? | ?] eqn:?
      | |- context [match validate_output ?h ?x with _ => _ end] =>
          destruct (validate_output h x) as [[|] | ?] eqn:?
      | |- context [if is_Exception ?c then _ else _] =>
          destruct (is_Exception c) eqn:?
      | |- context [if auto_save ?e then _ else _] =>
          destruct (auto_save e) eqn:?
      | |- context [if (?r =? 0)%Z then _ else _] =>
          destruct (r =? 0)%Z eqn:?
      end
    | save_case ]; step).

Lemma on_save_results now e : results (on_save now e) = results e.
Proof. reflexivity. Qed.

Lemma on_save_current_iteration now e :
  current_iteration (on_save now e) = current_iteration e.
Proof. reflexivity. Qed.

Lemma len_snoc {A} (l : list A) (x : A) : len (l ++ [x])%list = (len l + 1)%Z.
Proof. unfold len. rewrite length_app. cbn [List.length]. lia. Qed.

(** A call that returns has extended [results] and hands back the last
    record; a call that raises does so with an exception that is not an
    [Exception]. *)
Lemma run_single_outcome h (x : Any) e w :
  match run_single h x (e, w) with
  | (Returns r, (e', _)) =>
      (exists mid, results e' = (results e ++ mid ++ [r])%list) /\
      (r_status r = "success" \/ r_status r = "error")
  | (Raises ex, _) => is_Exception (exn_cls ex) = false
  end.
Proof.
  run_cases; unfold on_save;
    cbn [results with_results with_current_iteration with_metadata r_status];
    try assumption; try reflexivity;
    (split; [|auto]);
    first [ exists []; reflexivity
          | eexists; rewrite <- app_assoc; reflexivity ].
Qed.

Lemma run_single_invariant h (x : Any) e w :
  len (results e) = current_iteration e ->
  len (results (fst (snd (run_single h x (e, w))))) =
  current_iteration (fst (snd (run_single h x (e, w)))).
Proof.
  intros Hinv. run_cases;
    rewrite ?on_save_results, ?on_save_current_iteration;
    cbn [results with_results current_iteration with_current_iteration];
    rewrite ?len_snoc; lia.
Qed.

(** [run_single] touches the metadata only through [save]. *)
Lemma run_single_metadata h (x : Any) e w :
  let e' := fst (snd (run_single h x (e, w))) in
  metadata e' = metadata e \/
  (metadata e' !! "status" = Some (PStr "running") /\
   exists now, metadata e' !! "last_save" = Some (PStr (isoformat now))).
Proof.
  run_cases; try (left; reflexivity);
    right; rewrite on_save_status; (split; [reflexivity|]);
    eexists; apply on_save_last_save.
Qed.

(** A call whose only record is an error record has written nothing. *)
Lemma run_single_error_writes_nothing h (x : Any) e w r :
  results (fst (snd (run_single h x (e, w)))) = (results e ++ [r])%list ->
  r_status r = "error" ->
  files (snd (snd (run_single h x (e, w)))) = files w /\
  metadata (fst (snd (run_single h x (e, w)))) = metadata e.
Proof.
  run_cases; intros Hres Hst; unfold on_save in Hres;
    cbn [results with_results with_current_iteration with_metadata] in Hres;
    try (split; reflexivity);
    try (apply app_inv_head in Hres; injection Hres as <-; discriminate Hst);
    exfalso; apply (f_equal (@List.length _)) in Hres;
    rewrite ?length_app in Hres; cbn [List.length] in Hres; lia.
Qed.

(** Without auto-save a call that returns has counted once and appended
    one record; a call that raises has changed nothing. *)
Lemma run_single_once_without_autosave h (x : Any) e w :
  auto_save e = false ->
  match run_single h x (e, w) with
  | (Returns r, (e', _)) =>
      current_iteration e' = (current_iteration e + 1)%Z /\
      results e' = (results e ++ [r])%list
  | (Raises _, (e', _)) => e' = e
  end.
Proof.
  intros Hauto. run_cases; try congruence; split; reflexivity.
Qed.

(** On a success, [save] is called exactly when auto-save is on and the
    new count is a multiple of the interval; an [Exception] it raises
    sends the same call through the error branch as well. *)
Lemma run_single_success_saves h (x processed out : Any) e w :
  validate_input h x = Returns true ->
  process_input h x = Returns processed ->
  generate_output h processed = Returns out ->
  validate_output h out = Returns true ->
  save_interval e <> 0%Z ->
  let e1 := after_success x processed out (clock w (tick w)) e in
  snd (run_single h x (e, w)) =
  if auto_save e && ((current_iteration e + 1) mod save_interval e =? 0)%Z
  then
    match save None (e1, advance w) with
    | (Returns _, s') => s'
    | (Raises ex, (e2, w2)) =>
        if is_Exception (exn_cls ex)
        then (after_error x (exn_str ex) (clock w2 (tick w2)) e2, advance w2)
        else (e2, w2)
    end
  else (e1, advance w).
Proof.
  intros Hv Hp Hg Hvo Hsi. apply Z.eqb_neq in Hsi.
  unfold run_single, py_mod, after_success, after_error. step.
  rewrite Hv. step. rewrite Hp. step. rewrite Hg. step. rewrite Hvo. step.
  destruct (auto_save e); step; [|reflexivity].
  rewrite Hsi. step.
  destruct ((current_iteration e + 1) mod save_interval e =? 0)%Z; step;
    [|reflexivity].
  destruct (save None _) as [[path|ex] [e2 w2]]; step; [reflexivity|].
  destruct (is_Exception (exn_cls ex)); reflexivity.
Qed.

(** The first step that raises ends the steps.  An [Exception] goes to
    the error branch; any other exception leaves [run_single] with the
    instance and the world as they were. *)
Lemma run_single_step_raises h (x : Any) ex e w :
  step_raises h x ex ->
  run_single h x (e, w) =
  if is_Exception (exn_cls ex)
  then (Returns (error_record x (exn_str ex) (clock w (tick w)) e),
        (after_error x (exn_str ex) (clock w (tick w)) e, advance w))
  else (Raises ex, (e, w)).
Proof.
  intros [Hv | Hv Hp | p Hv Hp Hg | p o Hv Hp Hg Hvo];
    unfold run_single; step; rewrite Hv; step;
    try (rewrite Hp; step); try (rewrite Hg; step); try (rewrite Hvo; step);
    destruct (is_Exception (exn_cls ex)); reflexivity.
Qed.

(** ** The claims about [run_single] and the checkpoint writes *)

(** C4 (amended).  For hooks that return or raise an exception whose
    [str] returns, [run_single] lets no exception of class [Exception]
    out, whatever the input, the hooks and the checkpoint write do: when
    it returns, [results] has grown, the record returned is its last
    entry and the status of that record is "success" or "error"; the
    only exceptions that leave it are those outside [Exception]
    (KeyboardInterrupt, SystemExit), which [except Exception] does not
    catch.  And when a hook raises such an exception, it does leave
    [run_single], with no record appended: instance and world are as
    before the call. *)
Theorem run_single_captures_every_Exception h (x : Any) e w :
  match run_single h x (e, w) with
  | (Returns r, (e', _)) =>
      (exists mid, results e' = (results e ++ mid ++ [r])%list) /\
      (r_status r = "success" \/ r_status r = "error")
  | (Raises ex, _) => is_Exception (exn_cls ex) = false
  end /\
  (forall ex,
     step_raises h x ex ->
     is_Exception (exn_cls ex) = false ->
     run_single h x (e, w) = (Raises ex, (e, w))).
Proof.
  split.
  - (* every path through the hooks, the modulo and the auto-save *)
    run_cases; unfold on_save;
      cbn [results with_results with_current_iteration with_metadata r_status];
      try assumption; try reflexivity.
    all: split; [|auto].
    all: first [ exists []; reflexivity
               | eexists; rewrite <- app_assoc; reflexivity ].
  - intros ex Hstep Hbase.
    rewrite (run_single_step_raises h x ex e w Hstep), Hbase. reflexivity.
Qed.

(** C5 (amended).  An error raised while a checkpoint is written leaves
    [save] and [finish] as it is: each raises the first error among its
    four write requests and returns only when there is none.  Inside
    [run_single] the auto-save runs under the method's handler, so no
    [Exception] leaves [run_single].  [_load_progress] never raises:
    with no candidate it returns [False]; with a newest candidate that
    does not unpickle it prints the failure, returns [False] and leaves
    the instance as it was. *)
Theorem write_errors_propagate_load_errors_do_not :
  (forall fn e w,
     fst (save fn (e, w)) =
     match first_write_error w (save_clock_reads fn + 1 + tick w) 4 with
     | Some ex => Raises ex
     | None => Returns (str_path (path_join (output_dir e) (save_filename fn e w)))
     end) /\
  (forall e w,
     fst (finish (e, w)) =
     match first_write_error w (2 + tick w) 4 with
     | Some ex => Raises ex
     | None => Returns tt
     end) /\
  (forall h (x : Any) e w,
     match fst (run_single h x (e, w)) with
     | Returns _ => True
     | Raises ex => is_Exception (exn_cls ex) = false
     end) /\
  (forall e w,
     match max_mtime (candidates (experiment_name e) (output_dir e) (files w)) with
     | None => _load_progress (e, w) = (Returns false, (e, w))
     | Some f =>
         match option_map f_content (fs_lookup (f_path f) (files w)) with
         | Some (Pickled d) => fst (_load_progress (e, w)) = Returns true
         | _ =>
             exists why,
               _load_progress (e, w) =
               (Returns false,
                (e, with_stdout
                      (fun out => app out ["Failed to load progress from " ++
                                           str_path (f_path f) ++ ": " ++ why]) w))
         end
     end).
Proof.
  split; [exact save_outcome|]. split; [exact finish_outcome|]. split.
  - intros h x e w. pose proof (run_single_outcome h x e w) as H.
    destruct (run_single h x (e, w)) as [[r|ex] [e' w']]; cbn [fst]; [exact I | exact H].
  - intros e w.
    destruct (max_mtime _) as [f|] eqn:Hmax.
    + destruct (fs_lookup (f_path f) (files w)) as [g|] eqn:Hlook; cbn [option_map].
      * destruct (f_content g) as [d|j|why] eqn:Hc.
        -- apply (load_pickled e w f g d Hmax Hlook Hc).
        -- apply (load_unreadable e w f g Hmax Hlook). congruence.
        -- apply (load_unreadable e w f g Hmax Hlook). congruence.
      * unfold _load_progress. step. unfold candidates in Hmax. rewrite Hmax.
        step. rewrite Hlook. step. eexists. reflexivity.
    + apply load_none. now apply max_mtime_None.
Qed.

(** ** The claims about construction *)

Lemma constructed_empty nm dir si auto start :
  empty_state (@constructed Any nm dir si auto start).
Proof.
  unfold empty_state, constructed, fresh. step.
  split; [reflexivity|]. split; [reflexivity|]. dict_lookup.
Qed.

Lemma candidates_In nm dir fs f :
  In f (candidates nm dir fs) <->
  In f fs /\ parent (f_path f) = dir /\
  fnmatch_star (nm ++ "_progress_") ".pkl" (name (f_path f)) = true.
Proof.
  unfold candidates, glob. rewrite filter_In, andb_true_iff, String.eqb_eq.
  tauto.
Qed.


Lemma init_returns_inv nm dir si auto w (e : @Experiment Any) w' :
  __init__ nm dir si auto w = (Returns e, w') -> mkdirs_succeed w = true.
Proof.
  unfold __init__, init_logging, init_benchmark_dir, mkdirs_succeed.
  cbn [Nat.add]. step.
  destruct (io w (tick w)); step; [|discriminate].
  destruct (io w (S (S (tick w)))); step; [|discriminate].
  destruct (io w (S (S (S (tick w))))); step; [|discriminate].
  reflexivity.
Qed.

(** The files the pattern selects are the progress checkpoints of the
    directory. *)
Lemma candidates_are_progress_checkpoints nm dir fs f :
  In f (candidates nm dir fs) <-> In f fs /\ is_progress_checkpoint nm dir f.
Proof.
  rewrite candidates_In. unfold is_progress_checkpoint.
  rewrite fnmatch_star_spec.
  split; intros (Hin & Hdir & mid & Hname); (split; [exact Hin|]);
    (split; [exact Hdir|]); exists mid; rewrite Hname;
    [now rewrite append_assoc | now rewrite <- append_assoc].
Qed.


Lemma newest_checkpoint_spec nm dir p fs f :
  newest_checkpoint nm dir p fs = true ->
  fs_lookup p fs = Some f ->
  forall g, In g (candidates nm dir fs) -> f_path g <> p ->
            (f_mtime g < f_mtime f)%Z.
Proof.
  unfold newest_checkpoint. intros H Hlook. rewrite Hlook in H.
  rewrite forallb_forall in H. intros g Hin Hne.
  specialize (H g Hin). apply orb_true_iff in H. destruct H as [H | H].
  - apply path_eqb_eq in H. contradiction.
  - now apply Z.ltb_lt.
Qed.

(** In the model, a [save()] whose file is strictly the newest of the
    files the pattern selects is what the next constructor resumes. *)
Lemma roundtrip_from_newest e w path e1 w1 w2 si auto :
  save None (e, w) = (Returns path, (e1, w1)) ->
  unique_paths (files w) = true ->
  newest_checkpoint (experiment_name e) (output_dir e)
    (path_join (output_dir e) (save_filename None e w)) (files w1) = true ->
  files w2 = files w1 ->
  mkdirs_succeed w2 = true ->
  exists e2 w3,
    __init__ (experiment_name e) (output_dir e) si auto w2 = (Returns e2, w3) /\
    current_iteration e2 = current_iteration e /\
    results e2 = results e.
Proof.
  intros Hsave Hu Hnew Hfiles Hmk.
  set (nm := experiment_name e) in *. set (dir := output_dir e) in *.
  set (stamp := strftime_stamp (clock w (tick w))).
  set (stem := nm ++ "_progress_" ++ stamp).
  assert (Hname : save_filename None e w = stem ++ ".pkl").
  { unfold save_filename, stem. fold nm. fold stamp.
    now rewrite !append_assoc. }
  assert (Hstem : stem <> EmptyString).
  { intros H. apply (f_equal String.length) in H. unfold stem in H.
    rewrite !length_append in H. cbn [String.length] in H. lia. }
  destruct (save_returns_checkpoint _ _ _ _ _ stem Hsave Hname Hstem) as [m Hlook].
  fold dir in Hlook. cbn [fst snd] in Hlook.
  pose proof (save_returns_unique _ _ _ _ _ Hsave Hu) as Hu1. cbn [snd] in Hu1.
  pose proof (save_self None e w) as Hself. rewrite Hsave in Hself.
  cbn [fst snd] in Hself.
  rewrite Hname in Hnew.
  set (p := path_join dir (stem ++ ".pkl")) in *.
  set (fnew := {| f_path := p; f_mtime := m;
                  f_content := Pickled (checkpoint e1) |}) in *.
  destruct (fs_lookup_Some _ _ _ Hlook) as [Hin _].
  assert (Hcand : In fnew (candidates nm dir (files w1))).
  { apply candidates_In. split; [exact Hin|]. split; [reflexivity|].
    cbn [fnew f_path p path_join name]. unfold stem.
    rewrite !append_assoc. apply progress_name_matches. }
  assert (Hmax : max_mtime (candidates nm dir (files w1)) = Some fnew).
  { apply max_mtime_newest.
    - now apply unique_paths_filter.
    - exact Hcand.
    - intros g Hg Hne. apply (newest_checkpoint_spec nm dir p (files w1) fnew Hnew Hlook g Hg).
      exact Hne. }
  destruct (init_returns nm dir si auto w2 Hmk) as (b & e2 & w3 & Hload & Hinit).
  exists e2, w3. split; [exact Hinit|].
  set (e0 := constructed nm dir si auto (isoformat (clock w2 (S (tick w2))))) in *.
  set (w0 := advance (advance (advance (advance w2)))) in *.
  assert (Hf0 : files w0 = files w1) by (rewrite <- Hfiles; reflexivity).
  destruct (load_pickled e0 w0 fnew fnew (checkpoint e1)) as (_ & He & _).
  - change (experiment_name e0) with nm. change (output_dir e0) with dir.
    rewrite Hf0. exact Hmax.
  - rewrite Hf0. exact Hlook.
  - reflexivity.
  - rewrite Hload in He. cbn [fst snd] in He. subst e2 e1.
    split; reflexivity.
Qed.

Lemma strictly_newer_is_newest nm dir (fnew : @File Any) fs :
  fs_lookup (f_path fnew) fs = Some fnew ->
  (forall g, In g fs -> is_progress_checkpoint nm dir g ->
             f_path g <> f_path fnew -> (f_mtime g < f_mtime fnew)%Z) ->
  newest_checkpoint nm dir (f_path fnew) fs = true.
Proof.
  intros Hlook Hnew. unfold newest_checkpoint. rewrite Hlook.
  apply forallb_forall. intros g Hg.
  apply candidates_are_progress_checkpoints in Hg. destruct Hg as [Hin Hprog].
  destruct (path_eqb (f_path g) (f_path fnew)) eqn:Heq; [reflexivity|].
  cbn [orb]. apply Z.ltb_lt. apply (Hnew g Hin Hprog).
  intros H. rewrite H, path_eqb_refl in Heq. discriminate Heq.
Qed.

Lemma newest_is_strictly_newer nm dir p (fnew : @File Any) fs :
  newest_checkpoint nm dir p fs = true ->
  fs_lookup p fs = Some fnew ->
  forall g, In g fs -> is_progress_checkpoint nm dir g ->
            f_path g <> f_path fnew -> (f_mtime g < f_mtime fnew)%Z.
Proof.
  intros Hn Hl g Hin Hprog Hne.
  destruct (fs_lookup_Some _ _ _ Hl) as [_ Hp].
  apply (newest_checkpoint_spec nm dir p fs fnew Hn Hl g).
  - apply candidates_are_progress_checkpoints. now split.
  - rewrite <- Hp. exact Hne.
Qed.

(** C7 (amended).  Let the experiment name hold no pattern character
    and no path separator, and let the directory list each path once
    and name each entry by a single component.  Let [save()] return, and
    let the file it wrote have a strictly later modification time than
    every other file named [{experiment_name}_progress_{anything}.pkl]
    in the directory as the next constructor finds it.  Then an instance
    that constructor returns for the same experiment name and output
    directory has the counter and the result sequence of the instance
    that saved. *)
Theorem save_then_construct_roundtrip e w path e1 w1 fnew w2 si auto e2 w3 :
  plain_name (experiment_name e) = true ->
  well_named (files w) = true ->
  unique_paths (files w) = true ->
  save None (e, w) = (Returns path, (e1, w1)) ->
  fs_lookup (path_join (output_dir e) (save_filename None e w)) (files w1) =
    Some fnew ->
  (forall g, In g (files w1) ->
             is_progress_checkpoint (experiment_name e) (output_dir e) g ->
             f_path g <> f_path fnew -> (f_mtime g < f_mtime fnew)%Z) ->
  files w2 = files w1 ->
  __init__ (experiment_name e) (output_dir e) si auto w2 = (Returns e2, w3) ->
  current_iteration e2 = current_iteration e /\
  results e2 = results e.
Proof.
  intros _ _ Hu Hsave Hlook Hnew Hfiles Hinit.
  pose proof (init_returns_inv _ _ _ _ _ _ _ Hinit) as Hmk.
  destruct (fs_lookup_Some _ _ _ Hlook) as [_ Hpath].
  assert (Hnewest : newest_checkpoint (experiment_name e) (output_dir e)
                      (path_join (output_dir e) (save_filename None e w))
                      (files w1) = true).
  { rewrite <- Hpath. apply strictly_newer_is_newest; [|exact Hnew].
    rewrite Hpath. exact Hlook. }
  destruct (roundtrip_from_newest e w path e1 w1 w2 si auto
              Hsave Hu Hnewest Hfiles Hmk) as (e2' & w3' & Hinit' & Hres).
  rewrite Hinit in Hinit'. injection Hinit' as <- <-. exact Hres.
Qed.

(** ** The claims about [reset], [get_summary] and the status *)

(** C8.  [reset] returns; afterwards the counter is 0, the result
    sequence is empty, ["start_time"] holds the time just read and
    ["status"] is "reset"; the experiment name, the output directory,
    the save interval, the auto-save flag and every file are as
    before. *)
Theorem reset_clears_state_keeps_identity e w :
  match reset (e, w) with
  | (o, (e', w')) =>
      o = Returns tt /\
      current_iteration e' = 0%Z /\
      results e' = [] /\
      metadata e' !! "start_time" = Some (PStr (isoformat (clock w (tick w)))) /\
      metadata e' !! "status" = Some (PStr "reset") /\
      experiment_name e' = experiment_name e /\
      output_dir e' = output_dir e /\
      save_interval e' = save_interval e /\
      auto_save e' = auto_save e /\
      files w' = files w
  end.
Proof.
  unfold reset. step.
  split; [reflexivity|]. split; [reflexivity|]. split; [reflexivity|].
  split; [dict_lookup|]. split; [dict_lookup|].
  repeat split; reflexivity.
Qed.

Lemma with_status_length st (rs : list (@ResultRecord Any)) :
  (len (with_status st rs) <= len rs)%Z.
Proof.
  unfold len, with_status. pose proof (List.filter_length_le
    (fun r => String.eqb (r_status r) st) rs). lia.
Qed.

Lemma with_status_counts st (rs : list (@ResultRecord Any)) :
  List.length (with_status st rs) =
  count_occ string_dec (List.map r_status rs) st.
Proof.
  unfold with_status.
  induction rs as [|r rs IH]; cbn [List.filter List.map count_occ];
    [reflexivity|].
  destruct (string_dec (r_status r) st) as [Heq | Hne].
  - apply String.eqb_eq in Heq. rewrite Heq. cbn [List.length]. now rewrite IH.
  - apply String.eqb_neq in Hne. rewrite Hne. exact IH.
Qed.

(** C9.  Count the results whose status is "success" and count all
    results.  [get_summary] reports these two counts, and its success
    rate is 0 when there are no results and otherwise the first count
    divided by the second; it lies between 0 and 1.  The quotient is
    taken exactly; the bounds also hold for its value under any
    rounding that is monotone and keeps 0 and 1, as rounding to the
    nearest double is. *)
Theorem success_rate_is_the_fraction_of_successes e :
  let successes :=
    Z.of_nat (count_occ string_dec (List.map r_status (results e)) "success") in
  let total := Z.of_nat (List.length (results e)) in
  s_successful_results (get_summary e) = successes /\
  s_total_results (get_summary e) = total /\
  (0 <= s_success_rate (get_summary e))%Q /\
  (s_success_rate (get_summary e) <= 1)%Q /\
  match results e with
  | [] => s_success_rate (get_summary e) = 0%Q
  | _ :: _ =>
      (s_success_rate (get_summary e) == inject_Z successes / inject_Z total)%Q
  end /\
  (forall rnd : Q -> Q,
     (forall p q : Q, (p <= q)%Q -> (rnd p <= rnd q)%Q) ->
     (rnd 0 == 0)%Q -> (rnd 1 == 1)%Q ->
     (0 <= rnd (s_success_rate (get_summary e)))%Q /\
     (rnd (s_success_rate (get_summary e)) <= 1)%Q).
Proof.
  cbn zeta.
  assert (Hbounds : (0 <= s_success_rate (get_summary e))%Q /\
                    (s_success_rate (get_summary e) <= 1)%Q).
  { unfold get_summary. cbn [s_success_rate].
    pose proof (with_status_length "success" (results e)) as Hle.
    destruct (results e) as [|r rs] eqn:Hrs.
    - split; unfold Qle; cbn; lia.
    - assert (Hpos : Z.pos (Pos.of_nat (List.length (r :: rs))) = len (r :: rs))
        by (unfold len; cbn [List.length]; lia).
      split; unfold Qle; cbn [Qnum Qden]; [unfold len; lia | rewrite Hpos; lia]. }
  destruct Hbounds as [H0 H1].
  split; [|split; [|split; [exact H0 | split; [exact H1 | split]]]].
  - unfold get_summary. cbn [s_successful_results]. unfold len.
    now rewrite with_status_counts.
  - reflexivity.
  - unfold get_summary. cbn [s_success_rate].
    destruct (results e) as [|r rs] eqn:Hrs; [reflexivity|].
    assert (Hpos : Z.pos (Pos.of_nat (List.length (r :: rs))) =
                   Z.of_nat (List.length (r :: rs)))
      by (cbn [List.length]; lia).
    rewrite Qmake_Qdiv, Hpos. unfold len. now rewrite with_status_counts.
  - intros rnd Hmono Hr0 Hr1. split.
    + rewrite <- Hr0. now apply Hmono.
    + rewrite <- Hr1. now apply Hmono.
Qed.

(** C10.  Every [save], with or without a file name, whether it returns
    or raises, leaves ["status"] as "running" and ["last_save"] as the
    time it read, whatever the metadata held before.  So does [finish],
    whose own "finished" is overwritten by the [save] it calls; and a
    [run_single] either leaves the metadata as it was or, having
    auto-saved, leaves it in that state too. *)
Theorem save_always_sets_status_running :
  (forall fn e w,
     metadata (fst (snd (save fn (e, w)))) !! "status" = Some (PStr "running") /\
     metadata (fst (snd (save fn (e, w)))) !! "last_save" =
       Some (PStr (isoformat (clock w (save_clock_reads fn + tick w))))) /\
  (forall e w,
     metadata (fst (snd (finish (e, w)))) !! "status" = Some (PStr "running") /\
     metadata (fst (snd (finish (e, w)))) !! "last_save" =
       Some (PStr (isoformat (clock w (S (tick w)))))) /\
  (forall h (x : Any) e w,
     metadata (fst (snd (run_single h x (e, w)))) = metadata e \/
     (metadata (fst (snd (run_single h x (e, w)))) !! "status" =
        Some (PStr "running") /\
      exists now,
        metadata (fst (snd (run_single h x (e, w)))) !! "last_save" =
          Some (PStr (isoformat now)))).
Proof.
  split; [|split].
  - intros fn e w. rewrite save_self.
    split; [apply on_save_status | apply on_save_last_save].
  - intros e w. rewrite finish_self.
    split; [apply on_save_status | apply on_save_last_save].
  - intros h x e w. apply run_single_metadata.
Qed.

(** Once the counter equals the number of results, it does so after
    every sequence of calls. *)
Lemma run_each_invariant h (inputs : list Any) e w :
  len (results e) = current_iteration e ->
  len (results (fst (run_each h inputs (e, w)))) =
  current_iteration (fst (run_each h inputs (e, w))).
Proof.
  unfold run_each. revert e w.
  induction inputs as [|x xs IH]; intros e w Hinv; cbn [fold_left]; [exact Hinv|].
  pose proof (run_single_invariant h x e w Hinv) as H.
  destruct (run_single h x (e, w)) as [o [e' w']]. cbn [fst snd] in *.
  now apply IH.
Qed.


(** ** What [run_single] keeps *)

Lemma run_single_appends h (x : Any) e w :
  exists new,
    results (fst (snd (run_single h x (e, w)))) = (results e ++ new)%list.
Proof.
  run_cases; unfold on_save;
    cbn [results with_results with_current_iteration with_metadata];
    first [ exists []; rewrite app_nil_r; reflexivity
          | eexists; reflexivity
          | eexists; rewrite <- app_assoc; reflexivity ].
Qed.

(** X1.  [run_single] only ever appends: after any sequence of calls,
    whatever each returned or raised, the results held before are still
    there, unchanged and in place, at the front of [results]. *)
Theorem run_each_appends_only h (inputs : list Any) e w :
  exists new,
    results (fst (run_each h inputs (e, w))) = (results e ++ new)%list.
Proof.
  unfold run_each. revert e w.
  induction inputs as [|x xs IH]; intros e w; cbn [fold_left].
  - exists []. now rewrite app_nil_r.
  - destruct (run_single_appends h x e w) as [new1 H1].
    destruct (run_single h x (e, w)) as [o [e1 w1]]. cbn [fst snd] in *.
    destruct (IH e1 w1) as [new2 H2].
    exists (new1 ++ new2)%list. rewrite H2, H1. now rewrite app_assoc.
Qed.

Lemma numbered_snoc (rs : list (@ResultRecord Any)) r :
  numbered rs -> r_iteration r = len rs -> numbered (rs ++ [r])%list.
Proof.
  unfold numbered, len. intros Hn Hr.
  rewrite length_app, Nat.add_comm. cbn [List.length Nat.add].
  rewrite seq_S, !map_app, Hn. cbn [List.map Nat.add]. now rewrite Hr.
Qed.

Lemma run_single_numbered h (x : Any) e w :
  len (results e) = current_iteration e ->
  numbered (results e) ->
  numbered (results (fst (snd (run_single h x (e, w))))).
Proof.
  intros Hinv Hn. run_cases; unfold on_save;
    cbn [results with_results with_current_iteration with_metadata];
    repeat (apply numbered_snoc;
            [| cbn [r_iteration current_iteration with_current_iteration
                    with_results with_metadata];
               rewrite ?len_snoc; lia]);
    assumption.
Qed.

(** X2.  Starting from a state in which the counter equals the number
    of results and every result carries its position as ["iteration"],
    the same holds after any sequence of [run_single] calls: the entries
    of [results] are numbered 0, 1, 2, ... without gap or repeat. *)
Theorem run_each_numbers_results h (inputs : list Any) e w :
  len (results e) = current_iteration e ->
  numbered (results e) ->
  numbered (results (fst (run_each h inputs (e, w)))).
Proof.
  unfold run_each. revert e w.
  induction inputs as [|x xs IH]; intros e w Hinv Hn; cbn [fold_left];
    [exact Hn|].
  pose proof (run_single_invariant h x e w Hinv) as Hinv1.
  pose proof (run_single_numbered h x e w Hinv Hn) as Hn1.
  destruct (run_single h x (e, w)) as [o [e1 w1]]. cbn [fst snd] in *.
  now apply IH.
Qed.

Lemma run_single_statuses h (x : Any) e w :
  statuses_known (results e) = true ->
  statuses_known (results (fst (snd (run_single h x (e, w))))) = true.
Proof.
  unfold statuses_known. intros Hk. run_cases; unfold on_save;
    cbn [results with_results with_current_iteration with_metadata];
    rewrite ?forallb_app, ?Hk; reflexivity.
Qed.

Lemma statuses_partition (rs : list (@ResultRecord Any)) :
  statuses_known rs = true ->
  (len (with_status "success" rs) + len (with_status "error" rs) = len rs)%Z.
Proof.
  unfold statuses_known, with_status, len.
  induction rs as [|r rs IH]; cbn [forallb List.filter List.length];
    [reflexivity|].
  intros [Hr Hrs]%andb_true_iff. specialize (IH Hrs).
  destruct (String.eqb (r_status r) "success") eqn:Es.
  - apply String.eqb_eq in Es. rewrite Es. cbn [String.eqb Ascii.eqb Bool.eqb].
    cbn [List.length]. lia.
  - cbn [orb] in Hr. rewrite Hr. cbn [List.length]. lia.
Qed.

(** X3.  If every result so far has status "success" or "error", then
    after any sequence of [run_single] calls the summary's two counts
    add up to its total: no result is left out of both. *)
Theorem summary_counts_partition h (inputs : list Any) e w :
  statuses_known (results e) = true ->
  let s := get_summary (fst (run_each h inputs (e, w))) in
  (s_successful_results s + s_error_results s = s_total_results s)%Z.
Proof.
  intros Hk. cbn zeta. unfold get_summary.
  cbn [s_successful_results s_error_results s_total_results].
  apply statuses_partition.
  unfold run_each. revert e w Hk.
  induction inputs as [|x xs IH]; intros e w Hk; cbn [fold_left]; [exact Hk|].
  pose proof (run_single_statuses h x e w Hk) as Hk1.
  destruct (run_single h x (e, w)) as [o [e1 w1]]. cbn [fst snd] in *.
  now apply IH.
Qed.

(** ** The error branch of [run_single] *)

(** X4.  An input that [validate_input] rejects is never processed: the
    call returns an error entry whose message is "Input validation
    failed", appends exactly that entry, counts once, reads the clock
    once and touches neither the metadata nor any file, whatever the
    other three hooks would do. *)
Theorem rejected_input_is_recorded h (x : Any) e w :
  validate_input h x = Returns false ->
  run_single h x (e, w) =
  (Returns (error_record x "Input validation failed" (clock w (tick w)) e),
   (after_error x "Input validation failed" (clock w (tick w)) e, advance w)).
Proof.
  intros Hv. unfold run_single. step. rewrite Hv. step. reflexivity.
Qed.

(** X5.  An output that [validate_output] rejects is dropped: the call
    returns and appends an error entry with the message "Output
    validation failed" that holds neither the processed input nor the
    output, counts once, and saves nothing even with auto-save on. *)
Theorem rejected_output_is_dropped h (x processed out : Any) e w :
  validate_input h x = Returns true ->
  process_input h x = Returns processed ->
  generate_output h processed = Returns out ->
  validate_output h out = Returns false ->
  run_single h x (e, w) =
  (Returns (error_record x "Output validation failed" (clock w (tick w)) e),
   (after_error x "Output validation failed" (clock w (tick w)) e, advance w)).
Proof.
  intros Hv Hp Hg Hvo. unfold run_single. step.
  rewrite Hv. step. rewrite Hp. step. rewrite Hg. step. rewrite Hvo. step.
  reflexivity.
Qed.

(** X6.  When one of the four steps raises, the steps after it are not
    run.  If what it raised is an [Exception] (one whose [str] returns),
    the call returns an error entry whose ["error"] is [str] of that
    exception, appends it and counts once; otherwise the exception
    leaves [run_single] and the instance and the world are exactly as
    before the call. *)
Theorem raising_step_is_recorded_or_passes h (x : Any) ex e w :
  step_raises h x ex ->
  run_single h x (e, w) =
  if is_Exception (exn_cls ex)
  then (Returns (error_record x (exn_str ex) (clock w (tick w)) e),
        (after_error x (exn_str ex) (clock w (tick w)) e, advance w))
  else (Raises ex, (e, w)).
Proof.
  intros [Hv | Hv Hp | p Hv Hp Hg | p o Hv Hp Hg Hvo];
    unfold run_single; step; rewrite Hv; step;
    try (rewrite Hp; step); try (rewrite Hg; step); try (rewrite Hvo; step);
    destruct (is_Exception (exn_cls ex)); reflexivity.
Qed.

(** X21.  A call whose four steps go through, on an instance with
    auto-save off, or with auto-save on at a count that is not a
    multiple of the (non-zero) interval, returns the success entry with
    the input, the processed input and the output, numbered with the
    counter before the call; it appends that entry, counts once, reads
    the clock once and writes nothing. *)
Theorem successful_call_without_autosave h (x processed out : Any) e w :
  validate_input h x = Returns true ->
  process_input h x = Returns processed ->
  generate_output h processed = Returns out ->
  validate_output h out = Returns true ->
  auto_save e = false \/
  (save_interval e <> 0%Z /\
   ((current_iteration e + 1) mod save_interval e)%Z <> 0%Z) ->
  run_single h x (e, w) =
  (Returns (success_record x processed out (clock w (tick w)) e),
   (after_success x processed out (clock w (tick w)) e, advance w)).
Proof.
  intros Hv Hp Hg Hvo Hauto. unfold run_single, py_mod. step.
  rewrite Hv. step. rewrite Hp. step. rewrite Hg. step. rewrite Hvo. step.
  destruct Hauto as [Hoff | [Hsi Hmod]].
  - rewrite Hoff. step. reflexivity.
  - destruct (auto_save e); step; [|reflexivity].
    apply Z.eqb_neq in Hsi, Hmod. rewrite Hsi. step. rewrite Hmod. step.
    reflexivity.
Qed.

(** ** What [save] touches *)

Lemma save_files_frame fn e w q :
  q <> path_join (output_dir e) (save_filename fn e w) ->
  q <> with_suffix (path_join (output_dir e) (save_filename fn e w)) ".json" ->
  fs_lookup q (files (snd (snd (save fn (e, w))))) = fs_lookup q (files w).
Proof.
  intros Hp Hj. unfold save, save_filename in *.
  destruct fn; io_cases; repeat rewrite fs_lookup_write_ne by congruence;
    reflexivity.
Qed.

(** X7.  Let [save] be asked for a name that is a single path
    component.  Whether it returns or raises, it changes nothing of the
    instance but the metadata, and in the metadata only the four keys
    it writes; and in the output directory it leaves every other file
    alone: a file there whose name is neither the name it writes nor
    the name of that file's [.json] sibling is as it was. *)
Theorem save_touches_only_its_two_files fn e w q k :
  single_component (save_filename fn e w) = true ->
  parent q = output_dir e ->
  single_component (name q) = true ->
  name q <> save_filename fn e w ->
  name q <>
    name (with_suffix (path_join (output_dir e) (save_filename fn e w)) ".json") ->
  k <> "last_save" -> k <> "current_iteration" ->
  k <> "total_results" -> k <> "status" ->
  let e' := fst (snd (save fn (e, w))) in
  fs_lookup q (files (snd (snd (save fn (e, w))))) = fs_lookup q (files w) /\
  metadata e' !! k = metadata e !! k /\
  results e' = results e /\
  current_iteration e' = current_iteration e /\
  experiment_name e' = experiment_name e /\
  output_dir e' = output_dir e /\
  save_interval e' = save_interval e /\
  auto_save e' = auto_save e.
Proof.
  intros _ _ _ Hp Hj K1 K2 K3 K4. cbn zeta.
  split.
  { apply save_files_frame; intros ->; [now apply Hp | now apply Hj]. }
  rewrite save_self. unfold on_save. step.
  split; [|repeat split; reflexivity].
  unfold dict_update. cbn [fold_left fst snd].
  now rewrite !lookup_insert_ne by congruence.
Qed.

(** X8.  After a [save] that returned, under a name [{stem}.pkl] whose
    stem is not empty and holds no path separator, the directory holds
    both files: the pickle with the full state and the [.json] sibling,
    whose metadata is the pickled metadata, whose counter is the pickled
    counter and whose ["results_count"] is the length of the pickled
    result list. *)
Theorem save_writes_consistent_sibling fn e w path s' stem :
  save fn (e, w) = (Returns path, s') ->
  save_filename fn e w = stem ++ ".pkl" ->
  stem <> EmptyString ->
  no_separator stem = true ->
  exists m m' d j,
    fs_lookup (path_join (output_dir e) (stem ++ ".pkl")) (files (snd s')) =
      Some {| f_path := path_join (output_dir e) (stem ++ ".pkl");
              f_mtime := m; f_content := Pickled d |} /\
    fs_lookup (path_join (output_dir e) (stem ++ ".json")) (files (snd s')) =
      Some {| f_path := path_join (output_dir e) (stem ++ ".json");
              f_mtime := m'; f_content := JsonText j |} /\
    sd_metadata d = Some (j_metadata j) /\
    sd_current_iteration d = Some (j_current_iteration j) /\
    sd_experiment_name d = Some (j_experiment_name j) /\
    option_map len (sd_results d) = Some (j_results_count j) /\
    sd_results d = Some (results e) /\
    path = str_path (path_join (output_dir e) (stem ++ ".pkl")).
Proof.
  intros Hsave Hname Hstem _.
  destruct (save_returns_files _ _ _ _ _ Hsave) as (m1 & m2 & m3 & m4 & Hfiles).
  pose proof (save_self fn e w) as Hself. rewrite Hsave in Hself.
  cbn [fst snd] in Hself.
  pose proof (save_outcome fn e w) as Hout. rewrite Hsave in Hout.
  cbn [fst] in Hout.
  destruct (first_write_error _ _ _); [discriminate|]. injection Hout as Hpath.
  rewrite Hname in Hfiles, Hpath. rewrite with_suffix_pkl in Hfiles by assumption.
  do 4 eexists. rewrite Hfiles.
  split; [|split].
  - rewrite !fs_lookup_write_ne by apply json_sibling_differs.
    apply fs_lookup_write_eq.
  - apply fs_lookup_write_eq.
  - unfold checkpoint. cbn [sd_metadata sd_current_iteration sd_experiment_name
                            sd_results j_metadata j_current_iteration
                            j_experiment_name j_results_count option_map].
    rewrite Hself. repeat split; try reflexivity. exact Hpath.
Qed.

(** ** Edge cases of [save] *)

Lemma with_suffix_json (dir stem : string) :
  stem <> EmptyString ->
  with_suffix (path_join dir (stem ++ ".json")) ".json" =
  path_join dir (stem ++ ".json").
Proof.
  intros Hne. unfold with_suffix, path_join, suffix. cbn [name parent].
  rewrite rfind_append. cbn [rfind Ascii.eqb Bool.eqb].
  assert (Hlen : 0 < String.length stem)
    by (destruct stem; simpl; [congruence | lia]).
  rewrite length_append. cbn [String.length].
  replace (Nat.ltb 0 (String.length stem + 0)) with true
    by (symmetry; apply Nat.ltb_lt; lia).
  replace (Nat.ltb (String.length stem + 0) (String.length stem + 5 - 1)) with true
    by (symmetry; apply Nat.ltb_lt; lia).
  cbn [andb].
  replace (String.length stem + 0) with (String.length stem) by lia.
  rewrite substring_append_right.
  replace (String.length stem + 5 - String.length stem) with 5 by lia.
  cbn [substring String.length].
  replace (String.length stem + 5 - 5) with (String.length stem) by lia.
  now rewrite substring_append_left.
Qed.

(** X9.  Asked to save under a name [{stem}.json] whose stem is not
    empty and holds no path separator, [save] writes the pickle and
    then the summary to one and the same file: when it returns, the path
    it hands back holds the summary, and the pickle of the state is
    gone. *)
Theorem save_under_json_name_loses_the_pickle stem e w path s' :
  save (Some (stem ++ ".json")) (e, w) = (Returns path, s') ->
  stem <> EmptyString ->
  no_separator stem = true ->
  path = str_path (path_join (output_dir e) (stem ++ ".json")) /\
  exists m j,
    fs_lookup (path_join (output_dir e) (stem ++ ".json")) (files (snd s')) =
    Some {| f_path := path_join (output_dir e) (stem ++ ".json");
            f_mtime := m; f_content := JsonText j |}.
Proof.
  intros Hsave Hstem _.
  destruct (save_returns_files _ _ _ _ _ Hsave) as (m1 & m2 & m3 & m4 & Hfiles).
  pose proof (save_outcome (Some (stem ++ ".json")) e w) as Hout.
  rewrite Hsave in Hout. cbn [fst] in Hout.
  destruct (first_write_error _ _ _); [discriminate|]. injection Hout as Hpath.
  cbn [save_filename] in Hfiles, Hpath.
  rewrite with_suffix_json in Hfiles by assumption.
  split; [exact Hpath|]. do 2 eexists. rewrite Hfiles. apply fs_lookup_write_eq.
Qed.

(** X10.  [save] is not atomic.  If the checkpoint file can be opened
    but the dump then fails, [save] raises that error and leaves under
    the checkpoint's name a file that does not unpickle: whatever the
    name held before, a good checkpoint included, is lost.  Nothing else
    is written, the [.json] sibling neither. *)
Theorem failed_dump_leaves_a_cut_file fn e w m ex :
  io w (save_clock_reads fn + 1 + tick w) = IoOk m ->
  io w (S (save_clock_reads fn + 1 + tick w)) = IoErr ex ->
  let p := path_join (output_dir e) (save_filename fn e w) in
  fst (save fn (e, w)) = Raises ex /\
  exists why,
    files (snd (snd (save fn (e, w)))) =
      fs_write p m (Unreadable why) (files w) /\
    fs_lookup p (files (snd (snd (save fn (e, w))))) =
      Some {| f_path := p; f_mtime := m; f_content := Unreadable why |}.
Proof.
  intros Hopen Hdump. cbn zeta. unfold save, save_filename.
  destruct fn; cbn [save_clock_reads Nat.add] in Hopen, Hdump; step;
    rewrite Hopen; step; rewrite Hdump; step;
    (split; [reflexivity|]); eexists;
    (split; [reflexivity | apply fs_lookup_write_eq]).
Qed.

Lemma fs_write_lists_path p m c fs : In p (List.map f_path (fs_write p m c fs)).
Proof.
  induction fs as [|f fs IH]; cbn [fs_write List.map In f_path]; [now left|].
  destruct (path_eqb (f_path f) p); cbn [List.map In f_path];
    [now left | now right].
Qed.

Lemma fs_write_same_paths p m c fs :
  In p (List.map f_path fs) ->
  List.map f_path (fs_write p m c fs) = List.map f_path fs.
Proof.
  induction fs as [|f fs IH]; cbn [fs_write List.map In]; [tauto|].
  intros Hin. destruct (path_eqb (f_path f) p) eqn:E; cbn [List.map f_path].
  - apply path_eqb_eq in E. now rewrite E.
  - f_equal. apply IH. destruct Hin as [H | H]; [|exact H].
    apply path_eqb_neq in E. contradiction.
Qed.

Lemma fs_write_keeps_paths p q m c fs :
  In q (List.map f_path fs) -> In q (List.map f_path (fs_write p m c fs)).
Proof.
  induction fs as [|f fs IH]; cbn [fs_write List.map In]; [tauto|].
  intros Hin. destruct (path_eqb (f_path f) p) eqn:E; cbn [List.map In f_path].
  - apply path_eqb_eq in E. destruct Hin as [H | H]; [left; congruence | now right].
  - destruct Hin as [H | H]; [now left | right; now apply IH].
Qed.

(** X11.  Two [save()] calls whose clock readings fall into the same
    second write to the same file: the second one adds no file to the
    directory, and the checkpoint found under that name afterwards is
    the one of the second call. *)
Theorem same_second_saves_overwrite e w path1 e1 w1 e2 w2 path2 e3 w3 :
  save None (e, w) = (Returns path1, (e1, w1)) ->
  save None (e2, w2) = (Returns path2, (e3, w3)) ->
  experiment_name e2 = experiment_name e ->
  output_dir e2 = output_dir e ->
  strftime_stamp (clock w2 (tick w2)) = strftime_stamp (clock w (tick w)) ->
  files w2 = files w1 ->
  path2 = path1 /\
  List.map f_path (files w3) = List.map f_path (files w1) /\
  exists m,
    fs_lookup (path_join (output_dir e) (save_filename None e w)) (files w3) =
    Some {| f_path := path_join (output_dir e) (save_filename None e w);
            f_mtime := m; f_content := Pickled (checkpoint e3) |}.
Proof.
  intros Hs1 Hs2 Hnm Hdir Hstamp Hfiles.
  set (stem := experiment_name e ++ "_progress_" ++
               strftime_stamp (clock w (tick w))).
  assert (Hstem : experiment_name e ++ "_progress_" ++
                  strftime_stamp (clock w (tick w)) ++ ".pkl" = stem ++ ".pkl")
    by (unfold stem; now rewrite !append_assoc).
  assert (Hne : stem <> EmptyString).
  { intros H. apply (f_equal String.length) in H. unfold stem in H.
    rewrite !length_append in H. cbn [String.length] in H. lia. }
  pose proof (save_outcome None e w) as O1. rewrite Hs1 in O1.
  pose proof (save_outcome None e2 w2) as O2. rewrite Hs2 in O2.
  destruct (save_returns_files _ _ _ _ _ Hs1) as (a1 & a2 & a3 & a4 & F1).
  destruct (save_returns_files _ _ _ _ _ Hs2) as (b1 & b2 & b3 & b4 & F2).
  unfold save_filename in *. cbn [fst snd] in O1, O2, F1, F2.
  destruct (first_write_error w _ _); [discriminate|].
  destruct (first_write_error w2 _ _); [discriminate|].
  rewrite Hnm, Hdir, Hstamp in O2, F2. rewrite Hfiles in F2.
  rewrite Hstem in O1, O2, F1, F2 |- *.
  split; [congruence|].
  rewrite with_suffix_pkl in F1, F2 by assumption.
  set (p := path_join (output_dir e) (stem ++ ".pkl")) in *.
  set (jp := path_join (output_dir e) (stem ++ ".json")) in *.
  assert (Hp : In p (List.map f_path (files w1))).
  { rewrite F1. do 2 apply fs_write_keeps_paths.
    apply fs_write_keeps_paths. apply fs_write_lists_path. }
  assert (Hjp : In jp (List.map f_path (files w1))).
  { rewrite F1. apply fs_write_lists_path. }
  split.
  - rewrite F2.
    rewrite fs_write_same_paths
      by (do 3 apply fs_write_keeps_paths; exact Hjp).
    rewrite fs_write_same_paths
      by (do 2 apply fs_write_keeps_paths; exact Hjp).
    rewrite fs_write_same_paths by (apply fs_write_keeps_paths; exact Hp).
    now rewrite fs_write_same_paths.
  - exists b2. rewrite F2.
    rewrite !fs_lookup_write_ne by apply json_sibling_differs.
    apply fs_lookup_write_eq.
Qed.

(** ** [finish] and the next constructor *)

Lemma prefix_append_cancel (s a b : string) :
  String.prefix (s ++ a) (s ++ b) = String.prefix a b.
Proof.
  induction s as [|c s IH]; rewrite ?append_nil, ?append_cons;
    cbn [String.prefix]; [reflexivity|].
  destruct (ascii_dec c c) as [_|Hne]; [exact IH | now destruct Hne].
Qed.

Lemma final_name_does_not_match (nm ext : string) :
  fnmatch_star (nm ++ "_progress_") ".pkl" (nm ++ "_final" ++ ext) = false.
Proof.
  unfold fnmatch_star. rewrite prefix_append_cancel.
  replace (String.prefix "_progress_" ("_final" ++ ext)) with false
    by reflexivity.
  now rewrite andb_false_r.
Qed.

Lemma candidates_write_other nm dir p m c fs :
  fnmatch_star (nm ++ "_progress_") ".pkl" (name p) = false ->
  candidates nm dir (fs_write p m c fs) = candidates nm dir fs.
Proof.
  intros Hno. unfold candidates, glob.
  induction fs as [|f fs IH]; cbn [fs_write List.filter f_path].
  - now rewrite Hno, andb_false_r.
  - destruct (path_eqb (f_path f) p) eqn:E; cbn [List.filter f_path].
    + apply path_eqb_eq in E. now rewrite E, Hno, andb_false_r.
    + now rewrite IH.
Qed.

Lemma finish_returns_files e w s' :
  finish (e, w) = (Returns tt, s') ->
  let p := path_join (output_dir e) (experiment_name e ++ "_final.pkl") in
  exists (m1 m2 m3 m4 : Z) c1 c2 c3 c4,
    files (snd s') =
    fs_write (with_suffix p ".json") m4 c4
      (fs_write (with_suffix p ".json") m3 c3
         (fs_write p m2 c2 (fs_write p m1 c1 (files w)))).
Proof.
  unfold finish, save. io_cases; intros [= <-]; cbn [fst snd files];
    do 8 eexists; reflexivity.
Qed.

(** [finish] adds nothing the resume would look at. *)
Lemma finish_adds_no_candidate e w s' :
  finish (e, w) = (Returns tt, s') ->
  candidates (experiment_name e) (output_dir e) (files (snd s')) =
  candidates (experiment_name e) (output_dir e) (files w).
Proof.
  intros Hfin.
  destruct (finish_returns_files e w s' Hfin)
    as (m1 & m2 & m3 & m4 & c1 & c2 & c3 & c4 & Hfiles).
  rewrite Hfiles.
  assert (Hstem : experiment_name e ++ "_final.pkl" =
                  (experiment_name e ++ "_final") ++ ".pkl")
    by now rewrite append_assoc.
  rewrite Hstem, with_suffix_pkl.
  2:{ intros H. apply (f_equal String.length) in H.
      rewrite length_append in H. cbn [String.length] in H. lia. }
  rewrite !candidates_write_other; try reflexivity; cbn [name path_join];
    rewrite append_assoc; apply final_name_does_not_match.
Qed.

(** X12.  The checkpoint [finish] writes is not one the constructor
    resumes from.  For an experiment name without pattern characters and
    path separators, and a directory whose entries are named by single
    components: after a [finish] that returned in a directory without
    progress checkpoints, an instance a new constructor returns for the
    same name and directory starts empty, whatever the finished
    instance held. *)
Theorem final_checkpoint_is_not_resumed e w s' w2 si auto e2 w3 :
  plain_name (experiment_name e) = true ->
  well_named (files w) = true ->
  finish (e, w) = (Returns tt, s') ->
  (forall g, In g (files w) ->
             ~ is_progress_checkpoint (experiment_name e) (output_dir e) g) ->
  files w2 = files (snd s') ->
  __init__ (experiment_name e) (output_dir e) si auto w2 = (Returns e2, w3) ->
  empty_state e2.
Proof.
  intros _ _ Hfin Hnone Hfiles Hinit2.
  assert (Hnone' : candidates (experiment_name e) (output_dir e) (files w) = []).
  { destruct (candidates _ _ (files w)) as [|f0 rest] eqn:Hc; [reflexivity|].
    assert (Hin : In f0 (candidates (experiment_name e) (output_dir e) (files w)))
      by (rewrite Hc; now left).
    apply candidates_are_progress_checkpoints in Hin.
    destruct Hin as [Hin Hprog]. destruct (Hnone f0 Hin Hprog). }
  pose proof (init_returns_inv _ _ _ _ _ _ _ Hinit2) as Hmk.
  pose proof (finish_adds_no_candidate e w s' Hfin) as Hc. rewrite Hnone' in Hc.
  destruct (init_returns (experiment_name e) (output_dir e) si auto w2 Hmk)
    as (b & e2' & w3' & Hload & Hinit).
  rewrite Hinit2 in Hinit. injection Hinit as <- <-.
  rewrite load_none in Hload.
  - injection Hload as _ <- _. apply constructed_empty.
  - change (files (advance (advance (advance (advance w2))))) with (files w2).
    rewrite Hfiles. exact Hc.
Qed.

(** X13.  [finish], whether its write succeeds or not, leaves the end
    time and the number of iterations in the metadata (the [save] it
    calls does not touch these two keys), and changes neither the
    results nor the counter; the attribute [total_iterations] of the
    instance is not updated. *)
Theorem finish_records_the_total e w :
  let e' := fst (snd (finish (e, w))) in
  metadata e' !! "total_iterations" = Some (PInt (current_iteration e)) /\
  metadata e' !! "end_time" = Some (PStr (isoformat (clock w (tick w)))) /\
  metadata e' !! "current_iteration" = Some (PInt (current_iteration e)) /\
  metadata e' !! "total_results" = Some (PInt (len (results e))) /\
  results e' = results e /\
  current_iteration e' = current_iteration e /\
  total_iterations e' = total_iterations e.
Proof.
  cbn zeta. rewrite finish_self. unfold on_save, on_finish. step.
  repeat split; dict_lookup.
Qed.

(** ** The constructor *)

Lemma load_keeps_configuration e w :
  let e' := fst (snd (_load_progress (e, w))) in
  experiment_name e' = experiment_name e /\
  output_dir e' = output_dir e /\
  save_interval e' = save_interval e /\
  auto_save e' = auto_save e /\
  total_iterations e' = total_iterations e /\
  benchmark_dir e' = benchmark_dir e /\
  log_dir e' = log_dir e.
Proof.
  cbn zeta. unfold _load_progress. step.
  destruct (max_mtime _) as [f|]; step; [|repeat split; reflexivity].
  destruct (fs_lookup _ _) as [g|]; step; [|repeat split; reflexivity].
  destruct (f_content g); step; repeat split; reflexivity.
Qed.

(** X14.  When one of the three [mkdir] calls of the constructor fails,
    the constructor raises the error of the first call that failed and
    returns no instance.  Whether it returns or raises, it creates,
    changes and removes no file. *)
Theorem constructor_raises_when_mkdir_fails nm dir si auto w :
  files (snd (@__init__ Any nm dir si auto w)) = files w /\
  (forall ex, first_mkdir_error w = Some ex ->
              fst (@__init__ Any nm dir si auto w) = Raises ex).
Proof.
  unfold __init__, init_logging, init_benchmark_dir, first_mkdir_error.
  cbn [Nat.add]. step.
  destruct (io w (tick w)); step;
    [|split; [reflexivity | now intros ? [= ->]]].
  destruct (io w (S (S (tick w)))); step;
    [|split; [reflexivity | now intros ? [= ->]]].
  destruct (io w (S (S (S (tick w))))); step;
    [|split; [reflexivity | now intros ? [= ->]]].
  match goal with
  | |- context [_load_progress (?e0, ?w0)] =>
      destruct (load_total e0 w0) as (b & [e' w'] & Hload & _ & Hfiles);
      rewrite Hload
  end.
  split; [exact Hfiles | intros ? [=]].
Qed.

(** X15.  An instance the constructor returns has the save interval and
    the auto-save flag it was constructed with, [benchmarks] and [logs]
    under its output directory and [total_iterations] 0, also when it
    resumed from a checkpoint: of the checkpoint only metadata, results
    and counter are taken, the experiment name stored in it is not
    read. *)
Theorem constructor_keeps_its_arguments nm dir si auto w (e : @Experiment Any) w' :
  __init__ nm dir si auto w = (Returns e, w') ->
  experiment_name e = nm /\
  output_dir e = dir /\
  save_interval e = si /\
  auto_save e = auto /\
  total_iterations e = 0%Z /\
  benchmark_dir e = Some (path_join dir "benchmarks") /\
  log_dir e = Some (path_join dir "logs").
Proof.
  unfold __init__, init_logging, init_benchmark_dir. step.
  destruct (io w (tick w)); step; [|discriminate].
  destruct (io w (S (S (tick w)))); step; [|discriminate].
  destruct (io w (S (S (S (tick w))))); step; [|discriminate].
  match goal with
  | |- context [_load_progress (?e0, ?w0)] =>
      pose proof (load_keeps_configuration e0 w0) as Hcfg;
      destruct (_load_progress (e0, w0)) as [[b|ex] [e1 w1]]
  end; [|discriminate].
  intros [= <- _]. cbn [fst snd] in Hcfg. exact Hcfg.
Qed.

(** ** Auto-save over a run *)

Lemma save_returns_stdout fn e w path s' :
  save fn (e, w) = (Returns path, s') ->
  stdout (snd s') = app (stdout w) ["Progress saved to: " ++ path].
Proof.
  unfold save. destruct fn; io_cases; intros [= <- <-]; reflexivity.
Qed.

Lemma no_write_error w t n :
  (forall k, io_ok (io w k) = true) -> first_write_error w t n = None.
Proof.
  intros Hok. revert t. induction n as [|n IH]; intros t;
    cbn [first_write_error]; [reflexivity|].
  specialize (Hok t). destruct (io w t); [apply IH | discriminate].
Qed.

Lemma div_step (c n : Z) :
  (0 < n)%Z ->
  ((c + 1) / n = c / n + (if ((c + 1) mod n =? 0)%Z then 1 else 0))%Z.
Proof.
  intros Hn.
  pose proof (Z.div_mod c n ltac:(lia)) as Hc.
  pose proof (Z.mod_pos_bound c n Hn) as Bc.
  pose proof (Z.div_mod (c + 1) n ltac:(lia)) as Hc1.
  pose proof (Z.mod_pos_bound (c + 1) n Hn) as Bc1.
  destruct (Z.eqb_spec ((c + 1) mod n) 0); nia.
Qed.

(** One successful call with auto-save on and a disk that takes every
    write: it counts once and reports a save exactly at a multiple of
    the interval. *)
Lemma run_single_success_step h (x : Any) e w :
  steps_succeed h x ->
  (forall k, io_ok (io w k) = true) ->
  auto_save e = true ->
  (0 < save_interval e)%Z ->
  let s' := snd (run_single h x (e, w)) in
  current_iteration (fst s') = (current_iteration e + 1)%Z /\
  auto_save (fst s') = true /\
  save_interval (fst s') = save_interval e /\
  io (snd s') = io w /\
  Z.of_nat (List.length (stdout (snd s'))) =
    (Z.of_nat (List.length (stdout w)) +
     (if ((current_iteration e + 1) mod save_interval e =? 0)%Z then 1 else 0))%Z.
Proof.
  intros (p & o & Hv & Hp & Hg & Hvo) Hok Hauto Hn. cbn zeta.
  rewrite (run_single_success_saves h x p o e w Hv Hp Hg Hvo) by lia.
  rewrite Hauto. cbn [andb].
  destruct ((current_iteration e + 1) mod save_interval e =? 0)%Z.
  - set (e1 := after_success x p o (clock w (tick w)) e).
    pose proof (save_self None e1 (advance w)) as Hself.
    pose proof (save_oracle None e1 (advance w)) as [_ Hio].
    pose proof (save_outcome None e1 (advance w)) as Hout.
    rewrite no_write_error in Hout by exact Hok.
    destruct (save None (e1, advance w)) as [[path|ex] [e2 w2]] eqn:Hsave;
      [|discriminate].
    pose proof (save_returns_stdout _ _ _ _ _ Hsave) as Hstd.
    cbn [fst snd] in *. subst e2. rewrite Hstd, length_app.
    cbn [List.length stdout advance]. repeat split; try assumption; lia.
  - cbn [fst snd]. repeat split; try assumption.
    cbn [stdout advance]. lia.
Qed.

(** X16.  With auto-save on, a positive interval [n], steps that
    succeed on every input and a disk that takes every write, a run of
    [k] calls from counter [c] brings the counter to [c + k] and saves
    once for every multiple of [n] the counter passes: the number of
    "Progress saved" lines printed is [(c + k) / n - c / n]. *)
Theorem autosave_every_nth_success h (inputs : list Any) e w :
  Forall (steps_succeed h) inputs ->
  (forall k, io_ok (io w k) = true) ->
  auto_save e = true ->
  (0 < save_interval e)%Z ->
  let s' := run_each h inputs (e, w) in
  current_iteration (fst s') = (current_iteration e + len inputs)%Z /\
  Z.of_nat (List.length (stdout (snd s'))) =
    (Z.of_nat (List.length (stdout w)) +
     ((current_iteration e + len inputs) / save_interval e -
      current_iteration e / save_interval e))%Z.
Proof.
  cbn zeta. unfold run_each. revert e w.
  induction inputs as [|x xs IH]; intros e w Hall Hok Hauto Hn;
    cbn [fold_left].
  - unfold len. cbn [List.length fst snd]. rewrite Z.add_0_r. split; lia.
  - inversion Hall as [|? ? Hx Hxs]; subst.
    destruct (run_single_success_step h x e w Hx Hok Hauto Hn)
      as (Hci & Hauto1 & Hn1 & Hio & Hout).
    destruct (run_single h x (e, w)) as [o1 [e1 w1]]. cbn [fst snd] in *.
    destruct (IH e1 w1 Hxs) as [Hci2 Hout2];
      [intros k; rewrite Hio; apply Hok | exact Hauto1 | lia |].
    rewrite Hci2, Hout2, Hout, Hci, Hn1.
    pose proof (div_step (current_iteration e) (save_interval e) Hn) as Hd.
    unfold len in *. cbn [List.length].
    replace (current_iteration e + 1 + Z.of_nat (List.length xs))%Z
      with (current_iteration e + Z.of_nat (S (List.length xs)))%Z by lia.
    split; lia.
Qed.

(** ** What [run_single] leaves alone *)

Lemma progress_paths_differ e w q :
  parent q <> output_dir e \/
  String.prefix (experiment_name e ++ "_progress_") (name q) = false ->
  q <> path_join (output_dir e) (save_filename None e w) /\
  q <> with_suffix (path_join (output_dir e) (save_filename None e w)) ".json".
Proof.
  intros Hq.
  set (stem := experiment_name e ++ "_progress_" ++
               strftime_stamp (clock w (tick w))).
  assert (Hstem : save_filename None e w = stem ++ ".pkl")
    by (unfold save_filename, stem; now rewrite !append_assoc).
  assert (Hne : stem <> EmptyString).
  { intros H. apply (f_equal String.length) in H. unfold stem in H.
    rewrite !length_append in H. cbn [String.length] in H. lia. }
  rewrite Hstem, with_suffix_pkl by assumption.
  assert (Hpre : forall ext,
             String.prefix (experiment_name e ++ "_progress_") (stem ++ ext) = true).
  { intros ext. unfold stem. rewrite <- (append_assoc (experiment_name e)).
    rewrite append_assoc. apply prefix_append. }
  split; intros ->; cbn [parent name path_join] in Hq;
    rewrite Hpre in Hq; destruct Hq; congruence.
Qed.

(** X17.  Let the experiment name hold no pattern character and no
    path separator.  Whatever a [run_single] call returns or raises, it
    leaves the configuration of the instance as it was, and in the
    output directory it touches no file whose name does not begin with
    [{experiment_name}_progress_]. *)
Theorem run_single_leaves_other_files_alone h (x : Any) e w q :
  plain_name (experiment_name e) = true ->
  parent q = output_dir e ->
  single_component (name q) = true ->
  String.prefix (experiment_name e ++ "_progress_") (name q) = false ->
  let s' := snd (run_single h x (e, w)) in
  fs_lookup q (files (snd s')) = fs_lookup q (files w) /\
  experiment_name (fst s') = experiment_name e /\
  output_dir (fst s') = output_dir e /\
  save_interval (fst s') = save_interval e /\
  auto_save (fst s') = auto_save e /\
  total_iterations (fst s') = total_iterations e.
Proof.
  intros _ _ _ Hpre. cbn zeta.
  assert (Hq : parent q <> output_dir e \/
               String.prefix (experiment_name e ++ "_progress_") (name q) = false)
    by now right.
  run_cases; unfold on_save; step;
    try (repeat split; first [reflexivity | congruence]);
    (split; [|repeat split; first [reflexivity | congruence]]);
    match goal with
    | Hs : save None (?e1, ?w1) = _ |- _ =>
        destruct (progress_paths_differ e1 w1 q Hq) as [Hp Hj];
        pose proof (save_files_frame None e1 w1 q Hp Hj) as Hf;
        rewrite Hs in Hf; exact Hf
    end.
Qed.
End Properties.

(** ** Examples and counterexamples on concrete inputs *)

(** [demo] is what the constructor returns, on either disk and for the
    intervals used below. *)
Example demo_is_constructed :
  __init__ "demo" "out" 1 true (world_of [] calm_disk) =
    (Returns (fst (demo calm_disk 1 true)), snd (demo calm_disk 1 true)) /\
  __init__ "demo" "out" 1 true (world_of [] full_disk) =
    (Returns (fst (demo full_disk 1 true)), snd (demo full_disk 1 true)) /\
  __init__ "demo" "out" 0 true (world_of [] calm_disk) =
    (Returns (fst (demo calm_disk 0 true)), snd (demo calm_disk 0 true)) /\
  __init__ "demo" "out" 2 true (world_of [] calm_disk) =
    (Returns (fst (demo calm_disk 2 true)), snd (demo calm_disk 2 true)).
Proof. vm_compute. repeat split; reflexivity. Qed.

Example demo_starts_empty :
  current_iteration (fst (demo calm_disk 1 true)) = 0%Z /\
  results (fst (demo calm_disk 1 true)) = [] /\
  metadata (fst (demo calm_disk 1 true)) !! "status" = Some (PStr "initialized").
Proof. vm_compute. repeat split; reflexivity. Qed.

(** C1.  One call, counted twice.  With the default interval 1 and
    auto-save on, a call whose steps all succeed appends its success
    record and counts; the checkpoint write then fails with [OSError],
    the handler of the same call appends an error record and counts
    again.  The same happens without any disk error when the interval
    is 0, through the [ZeroDivisionError] of the modulo. *)
Theorem one_call_counted_twice_when_autosave_raises :
  (let s' := snd (run_single doubling 5%Z (demo full_disk 1 true)) in
   returned (fst (run_single doubling 5%Z (demo full_disk 1 true))) = true /\
   current_iteration (fst s') = 2%Z /\
   map r_status (results (fst s')) = ["success"; "error"] /\
   map r_error (results (fst s')) =
     [None; Some "[Errno 28] No space left on device"]) /\
  (let s' := snd (run_single doubling 5%Z (demo calm_disk 0 true)) in
   returned (fst (run_single doubling 5%Z (demo calm_disk 0 true))) = true /\
   current_iteration (fst s') = 2%Z /\
   map r_status (results (fst s')) = ["success"; "error"] /\
   map r_error (results (fst s')) = [None; Some "integer modulo by zero"]).
Proof. vm_compute. repeat split; reflexivity. Qed.

(** C2.  [finish] on an experiment that ran nothing returns and writes
    [demo_final.pkl], but the status it leaves, in memory and in the
    file, is "running": the [save] it calls overwrites "finished"
    before anything is pickled. *)
Theorem finish_leaves_status_running :
  let s' := snd (finish (demo calm_disk 1 true)) in
  fst (finish (demo calm_disk 1 true)) = Returns tt /\
  metadata (fst s') !! "status" = Some (PStr "running") /\
  metadata (fst s') !! "end_time" = Some (PStr "2024-05-17T09:30:04") /\
  map (fun f => name (f_path f)) (files (snd s')) =
    ["demo_final.pkl"; "demo_final.json"] /\
  match fs_lookup (path_join "out" "demo_final.pkl") (files (snd s')) with
  | Some {| f_content := Pickled d |} =>
      match sd_metadata d with
      | Some md => md !! "status" = Some (PStr "running")
      | None => False
      end
  | _ => False
  end.
Proof. vm_compute. repeat split; reflexivity. Qed.

(** C3.  With interval 1 and auto-save on, a call that ends in the
    error branch brings the counter to 1, a multiple of the interval,
    and writes no checkpoint; the same call with steps that succeed
    does write one. *)
Theorem error_outcome_is_not_auto_saved :
  (let s' := snd (run_single failing 5%Z (demo calm_disk 1 true)) in
   map r_status (results (fst s')) = ["error"] /\
   current_iteration (fst s') = 1%Z /\
   auto_save (fst s') = true /\
   (current_iteration (fst s') mod save_interval (fst s'))%Z = 0%Z /\
   files (snd s') = [] /\
   metadata (fst s') !! "last_save" = None) /\
  (let s' := snd (run_single doubling 5%Z (demo calm_disk 1 true)) in
   map r_status (results (fst s')) = ["success"] /\
   current_iteration (fst s') = 1%Z /\
   map (fun f => name (f_path f)) (files (snd s')) =
     ["demo_progress_20240517_093005.pkl"; "demo_progress_20240517_093005.json"]).
Proof. vm_compute. repeat split; reflexivity. Qed.

(** Three successful calls with interval 2 save once, after the second
    call. *)
Example three_successes_interval_two_save_once :
  let s1 := snd (run_single doubling 5%Z (demo calm_disk 2 true)) in
  let s2 := snd (run_single doubling 6%Z s1) in
  let s3 := snd (run_single doubling 7%Z s2) in
  files (snd s1) = [] /\
  map (fun f => name (f_path f)) (files (snd s2)) =
    ["demo_progress_20240517_093006.pkl"; "demo_progress_20240517_093006.json"] /\
  files (snd s3) = files (snd s2) /\
  stdout (snd s3) = ["Progress saved to: out/demo_progress_20240517_093006.pkl"] /\
  current_iteration (fst s3) = 3%Z.
Proof. vm_compute. repeat split; reflexivity. Qed.

(** C4, counterexample.  A hook interrupted from the keyboard: the
    exception leaves [run_single] and no record is appended. *)
Lemma run_single_raises_KeyboardInterrupt :
  run_single interrupted 5%Z (demo calm_disk 1 true) =
  (Raises (Exn KeyboardInterrupt EmptyString), demo calm_disk 1 true).
Proof. vm_compute. reflexivity. Qed.

(** C5, counterexample.  The disk is full: [save] called on its own
    raises the [OSError]; the auto-save inside [run_single] raises it
    too, but [run_single] returns, with the error text in the record it
    hands back. *)
Lemma autosave_error_stays_inside_run_single :
  fst (save None (demo full_disk 1 true)) =
    Raises (Exn OSError "[Errno 28] No space left on device") /\
  match fst (run_single doubling 5%Z (demo full_disk 1 true)) with
  | Returns r =>
      r_status r = "error" /\
      r_error r = Some "[Errno 28] No space left on device"
  | Raises _ => False
  end.
Proof. vm_compute. repeat split; reflexivity. Qed.


(** The newer file wins, not the name that sorts last. *)
Example resume_prefers_mtime_over_name :
  match __init__ "demo" "out" 1 true (world_of two_checkpoints calm_disk) with
  | (Returns e, w') =>
      current_iteration e = 1%Z /\ results e = [record_of 0 7] /\
      stdout w' =
        ["Loaded progress from: out/demo_progress_20240101_000000.pkl";
         "Resuming from iteration: 1"]
  | (Raises _, _) => False
  end.
Proof. vm_compute. repeat split; reflexivity. Qed.

(** C7, witness: one call without auto-save, then [save()], then a new
    instance on the directory as [save] left it. *)
Lemma save_then_construct_roundtrip_witness :
  let s := snd (run_single doubling 5%Z (demo calm_disk 2 true)) in
  let s1 := snd (save None s) in
  let fnew := {| f_path := path_join "out" "demo_progress_20240517_093005.pkl";
                 f_mtime := 8%Z;
                 f_content := Pickled (checkpoint (fst s1)) |} in
  plain_name (experiment_name (fst s)) = true /\
  well_named (files (snd s)) = true /\
  unique_paths (files (snd s)) = true /\
  save None s =
    (Returns "out/demo_progress_20240517_093005.pkl", (fst s1, snd s1)) /\
  fs_lookup (path_join (output_dir (fst s)) (save_filename None (fst s) (snd s)))
    (files (snd s1)) = Some fnew /\
  List.map (fun f => (str_path (f_path f), f_mtime f)) (files (snd s1)) =
    [ ("out/demo_progress_20240517_093005.pkl", 8%Z);
      ("out/demo_progress_20240517_093005.json", 10%Z) ] /\
  exists e2 w3,
    __init__ (experiment_name (fst s)) (output_dir (fst s)) 2 true (snd s1) =
      (Returns e2, w3) /\
    current_iteration e2 = current_iteration (fst s) /\
    results e2 = results (fst s).
Proof.
  cbv zeta.
  split; [vm_compute; reflexivity|]. split; [vm_compute; reflexivity|].
  split; [vm_compute; reflexivity|]. split; [vm_compute; reflexivity|].
  split; [vm_compute; reflexivity|]. split; [vm_compute; reflexivity|].
  assert (Hret : returned
            (fst (__init__
                    (experiment_name
                       (fst (snd (run_single doubling 5%Z (demo calm_disk 2 true)))))
                    (output_dir
                       (fst (snd (run_single doubling 5%Z (demo calm_disk 2 true)))))
                    2%Z true
                    (snd (snd (save None
                       (snd (run_single doubling 5%Z (demo calm_disk 2 true)))))))) =
            true) by (vm_compute; reflexivity).
  destruct (__init__
              (experiment_name
                 (fst (snd (run_single doubling 5%Z (demo calm_disk 2 true)))))
              (output_dir
                 (fst (snd (run_single doubling 5%Z (demo calm_disk 2 true)))))
              2%Z true
              (snd (snd (save None
                 (snd (run_single doubling 5%Z (demo calm_disk 2 true)))))))
    as [[e2 | ex] w3] eqn:Hinit; [|discriminate Hret].
  exists e2, w3. split; [reflexivity|].
  apply (save_then_construct_roundtrip
           (fst (snd (run_single doubling 5%Z (demo calm_disk 2 true))))
           (snd (snd (run_single doubling 5%Z (demo calm_disk 2 true))))
           "out/demo_progress_20240517_093005.pkl"
           (fst (snd (save None (snd (run_single doubling 5%Z (demo calm_disk 2 true))))))
           (snd (snd (save None (snd (run_single doubling 5%Z (demo calm_disk 2 true))))))
           {| f_path := path_join "out" "demo_progress_20240517_093005.pkl";
              f_mtime := 8%Z;
              f_content :=
                Pickled (checkpoint
                  (fst (snd (save None
                     (snd (run_single doubling 5%Z (demo calm_disk 2 true))))))) |}
           (snd (snd (save None (snd (run_single doubling 5%Z (demo calm_disk 2 true))))))
           2%Z true e2 w3);
    [ vm_compute; reflexivity | vm_compute; reflexivity | vm_compute; reflexivity
    | vm_compute; reflexivity | vm_compute; reflexivity | | reflexivity
    | exact Hinit ].
  apply (newest_is_strictly_newer "demo" "out"
           (path_join "out" "demo_progress_20240517_093005.pkl"));
    vm_compute; reflexivity.
Defined.

(** C7, counterexample.  On [coarse_disk] a new instance runs one call
    and calls [save()], runs a second call and calls [save()] again,
    seconds later: two checkpoints with different names and the same
    modification time, and nothing is written after the second.  The
    next constructor takes the first of the two in the listing, the
    older one: its instance has counter 1 and one result, not the
    counter 2 and the two results that were saved last. *)
Lemma roundtrip_fails_on_equal_mtime :
  match __init__ "demo" "out" 1 false (world_of [] coarse_disk) with
  | (Returns e0, w0) =>
      let s1 := snd (save None (snd (run_single doubling 5%Z (e0, w0)))) in
      match save None (snd (run_single doubling 6%Z s1)) with
      | (Returns path, (e2, w2)) =>
          path = "out/demo_progress_20240517_093012.pkl" /\
          List.map (fun f => (str_path (f_path f), f_mtime f)) (files w2) =
            [ ("out/demo_progress_20240517_093005.pkl", 8%Z);
              ("out/demo_progress_20240517_093005.json", 8%Z);
              ("out/demo_progress_20240517_093012.pkl", 8%Z);
              ("out/demo_progress_20240517_093012.json", 8%Z) ] /\
          current_iteration e2 = 2%Z /\
          List.length (results e2) = 2 /\
          match __init__ "demo" "out" 1 false w2 with
          | (Returns e3, _) =>
              current_iteration e3 = 1%Z /\
              List.length (results e3) = 1 /\
              current_iteration e3 <> current_iteration e2 /\
              results e3 <> results e2
          | (Raises _, _) => False
          end
      | (Raises _, _) => False
      end
  | (Raises _, _) => False
  end.
Proof.
  vm_compute. repeat split; try reflexivity; discriminate.
Qed.

(** ** The module [logging] *)

Lemma split_lines_length (message : string) :
  List.length (split_lines message) = S (line_breaks message).
Proof.
  induction message as [|c rest IH]; cbn [split_lines line_breaks];
    [reflexivity|].
  destruct (Ascii.eqb c newline); cbn [List.length]; [now rewrite IH|].
  destruct (split_lines rest) as [|line lines]; [discriminate IH | exact IH].
Qed.

(** X18.  [sourced_print] prints one line more than the message has
    line breaks, so at least one: an empty message still prints a line,
    holding the tag alone.  Every line it prints begins with the source
    in brackets and a blank. *)
Theorem sourced_print_lines (message source : string) :
  List.length (sourced_print message source) = S (line_breaks message) /\
  Forall (fun line => String.prefix ("[" ++ source ++ "] ") line = true)
         (sourced_print message source) /\
  sourced_print EmptyString source = ["[" ++ source ++ "] "].
Proof.
  unfold sourced_print. split; [|split].
  - rewrite length_map. apply split_lines_length.
  - apply List.Forall_forall. intros line Hin. apply in_map_iff in Hin.
    destruct Hin as (piece & <- & _).
    replace ("[" ++ source ++ "] " ++ piece)
      with (("[" ++ source ++ "] ") ++ piece) by (now rewrite !append_assoc).
    apply prefix_append.
  - reflexivity.
Qed.

(** X19.  Splitting a message at its line breaks loses nothing: the
    pieces hold no line break, and joined by line breaks they give the
    message back. *)
Theorem split_lines_roundtrip (message : string) :
  String.concat (String newline EmptyString) (split_lines message) = message /\
  Forall (fun piece => line_breaks piece = 0) (split_lines message).
Proof.
  induction message as [|c rest [IHj IHp]]; cbn [split_lines].
  - split; [reflexivity | repeat constructor].
  - destruct (Ascii.eqb c newline) eqn:E.
    + apply Ascii.eqb_eq in E. subst c. split.
      * pose proof (split_lines_length rest) as Hlen.
        destruct (split_lines rest) as [|line lines] eqn:Es; [discriminate|].
        cbn [String.concat]. rewrite append_nil, append_cons, append_nil.
        cbn [String.concat] in IHj. now rewrite IHj.
      * constructor; [reflexivity | exact IHp].
    + pose proof (split_lines_length rest) as Hlen.
      destruct (split_lines rest) as [|line lines] eqn:Es; [discriminate|].
      split.
      * cbn [String.concat] in IHj |- *.
        destruct lines as [|line2 lines].
        -- now rewrite IHj.
        -- rewrite append_cons. now rewrite IHj.
      * inversion IHp as [|? ? Hl Hls]; subst.
        constructor; [|exact Hls]. cbn [line_breaks]. now rewrite E.
Qed.

(** X20.  Right after import nothing is logged.  [LOG] prints exactly
    when logging is switched on; [LOG_TAG] prints what [LOG] would once
    its tag is registered and logging is on, and nothing for a tag that
    was never registered or while logging is off.  Registering further
    tags and toggling never hides a tag again. *)
Theorem logging_is_gated (message tag other : string)
  (caller : option string) (g : LogState) (out : list string) (on : bool) :
  LOG message caller logging_imported out = out /\
  LOG message caller (TOGGLE_SHOWLOG false g) out = out /\
  LOG message caller (TOGGLE_SHOWLOG true g) out =
    app out (sourced_print message (source_of caller)) /\
  LOG_TAG message tag caller (TOGGLE_SHOWLOG false g) out = out /\
  LOG_TAG message tag caller (TOGGLE_SHOWLOG true logging_imported) out = out /\
  LOG_TAG message tag caller (TOGGLE_SHOWLOG true (REG_TAG tag g)) out =
    LOG message caller (TOGGLE_SHOWLOG true g) out /\
  tag_visible tag (TOGGLE_SHOWLOG on (REG_TAG other (REG_TAG tag g))) = true.
Proof.
  assert (Hvis : forall g', tag_visible tag (REG_TAG tag g') = true).
  { intros g'. unfold tag_visible, REG_TAG. cbn [VISIBLE_TAGS].
    rewrite existsb_app. cbn [existsb]. now rewrite String.eqb_refl, orb_true_r. }
  repeat split; try reflexivity.
  - unfold LOG_TAG, LOG, TOGGLE_SHOWLOG. cbn [Showlog andb].
    change (tag_visible tag {| Showlog := true;
                               VISIBLE_TAGS := VISIBLE_TAGS (REG_TAG tag g) |})
      with (tag_visible tag (REG_TAG tag g)).
    now rewrite Hvis.
  - unfold tag_visible, TOGGLE_SHOWLOG. cbn [VISIBLE_TAGS REG_TAG].
    rewrite !existsb_app. cbn [existsb].
    now rewrite String.eqb_refl, !orb_true_r.
Qed.

(** ** The further properties on concrete inputs *)

(** X2, witness: three calls on [demo]. *)
Lemma run_each_numbers_results_witness :
  len (results (fst (demo calm_disk 2 true))) =
    current_iteration (fst (demo calm_disk 2 true)) /\
  numbered (results (fst (demo calm_disk 2 true))) /\
  numbered (results (fst (run_each doubling [5; 6; 7]%Z
                            (fst (demo calm_disk 2 true),
                             snd (demo calm_disk 2 true))))).
Proof.
  split; [reflexivity|]. split; [reflexivity|].
  apply (run_each_numbers_results doubling [5; 6; 7]%Z
           (fst (demo calm_disk 2 true)) (snd (demo calm_disk 2 true)));
    reflexivity.
Defined.

(** X3, witness: two calls that end in the error branch. *)
Lemma summary_counts_partition_witness :
  statuses_known (results (fst (demo calm_disk 2 true))) = true /\
  let s := get_summary (fst (run_each failing [5; 6]%Z
                               (fst (demo calm_disk 2 true),
                                snd (demo calm_disk 2 true)))) in
  (s_successful_results s + s_error_results s = s_total_results s)%Z.
Proof.
  split; [reflexivity|].
  apply (summary_counts_partition failing [5; 6]%Z
           (fst (demo calm_disk 2 true)) (snd (demo calm_disk 2 true))).
  reflexivity.
Defined.

(** X4, witness. *)
Lemma rejected_input_is_recorded_witness :
  validate_input rejecting_input 5%Z = Returns false /\
  run_single rejecting_input 5%Z
    (fst (demo calm_disk 1 true), snd (demo calm_disk 1 true)) =
  (Returns (error_record 5%Z "Input validation failed" (demo_clock 4)
              (fst (demo calm_disk 1 true))),
   (after_error 5%Z "Input validation failed" (demo_clock 4)
      (fst (demo calm_disk 1 true)),
    advance (snd (demo calm_disk 1 true)))).
Proof.
  split; [reflexivity|].
  apply (rejected_input_is_recorded rejecting_input 5%Z
           (fst (demo calm_disk 1 true)) (snd (demo calm_disk 1 true))).
  reflexivity.
Defined.

(** X5, witness. *)
Lemma rejected_output_is_dropped_witness :
  validate_input rejecting_output 5%Z = Returns true /\
  process_input rejecting_output 5%Z = Returns 6%Z /\
  generate_output rejecting_output 6%Z = Returns 12%Z /\
  validate_output rejecting_output 12%Z = Returns false /\
  run_single rejecting_output 5%Z
    (fst (demo calm_disk 1 true), snd (demo calm_disk 1 true)) =
  (Returns (error_record 5%Z "Output validation failed" (demo_clock 4)
              (fst (demo calm_disk 1 true))),
   (after_error 5%Z "Output validation failed" (demo_clock 4)
      (fst (demo calm_disk 1 true)),
    advance (snd (demo calm_disk 1 true)))).
Proof.
  do 4 (split; [reflexivity|]).
  apply (rejected_output_is_dropped rejecting_output 5%Z 6%Z 12%Z
           (fst (demo calm_disk 1 true)) (snd (demo calm_disk 1 true)));
    reflexivity.
Defined.

(** X6, witness: [process_input] raises an [Exception]. *)
Lemma raising_step_is_recorded_or_passes_witness :
  step_raises failing 5%Z (Exn UserError "boom") /\
  run_single failing 5%Z
    (fst (demo calm_disk 1 true), snd (demo calm_disk 1 true)) =
  (Returns (error_record 5%Z "boom" (demo_clock 4) (fst (demo calm_disk 1 true))),
   (after_error 5%Z "boom" (demo_clock 4) (fst (demo calm_disk 1 true)),
    advance (snd (demo calm_disk 1 true)))).
Proof.
  assert (H : step_raises failing 5%Z (Exn UserError "boom"))
    by (apply process_input_raises; reflexivity).
  split; [exact H|].
  apply (raising_step_is_recorded_or_passes failing 5%Z (Exn UserError "boom")
           (fst (demo calm_disk 1 true)) (snd (demo calm_disk 1 true)) H).
Defined.

(** X7, witness: a file of the user's in the output directory and the
    key ["start_time"]. *)
Lemma save_touches_only_its_two_files_witness :
  let e := fst (demo calm_disk 1 true) in
  let w := with_files
             (fun _ => [ {| f_path := path_join "out" "notes.txt"; f_mtime := 1;
                            f_content := Unreadable "text" |} ])
             (snd (demo calm_disk 1 true)) in
  let e' := fst (snd (save None (e, w))) in
  single_component (save_filename None e w) = true /\
  parent (path_join "out" "notes.txt") = output_dir e /\
  single_component (name (path_join "out" "notes.txt")) = true /\
  fs_lookup (path_join "out" "notes.txt") (files (snd (snd (save None (e, w))))) =
    fs_lookup (path_join "out" "notes.txt") (files w) /\
  metadata e' !! "start_time" = metadata e !! "start_time" /\
  results e' = results e /\
  current_iteration e' = current_iteration e /\
  experiment_name e' = experiment_name e /\
  output_dir e' = output_dir e /\
  save_interval e' = save_interval e /\
  auto_save e' = auto_save e.
Proof.
  cbv zeta.
  split; [vm_compute; reflexivity|]. split; [vm_compute; reflexivity|].
  split; [vm_compute; reflexivity|].
  apply (save_touches_only_its_two_files None
           (fst (demo calm_disk 1 true))
           (with_files
              (fun _ => [ {| f_path := path_join "out" "notes.txt"; f_mtime := 1;
                             f_content := Unreadable "text" |} ])
              (snd (demo calm_disk 1 true)))
           (path_join "out" "notes.txt") "start_time");
    first [ vm_compute; reflexivity
          | intros H; vm_compute in H; discriminate H ].
Defined.

(** X8, witness: the first [save()] of [demo]. *)
Lemma save_writes_consistent_sibling_witness :
  let s := (fst (demo calm_disk 1 true), snd (demo calm_disk 1 true)) in
  save None s =
    (Returns "out/demo_progress_20240517_093004.pkl", snd (save None s)) /\
  save_filename None (fst s) (snd s) = "demo_progress_20240517_093004" ++ ".pkl" /\
  "demo_progress_20240517_093004" <> EmptyString /\
  no_separator "demo_progress_20240517_093004" = true /\
  exists m m' d j,
    fs_lookup (path_join "out" ("demo_progress_20240517_093004" ++ ".pkl"))
              (files (snd (snd (save None s)))) =
      Some {| f_path := path_join "out" ("demo_progress_20240517_093004" ++ ".pkl");
              f_mtime := m; f_content := Pickled d |} /\
    fs_lookup (path_join "out" ("demo_progress_20240517_093004" ++ ".json"))
              (files (snd (snd (save None s)))) =
      Some {| f_path := path_join "out" ("demo_progress_20240517_093004" ++ ".json");
              f_mtime := m'; f_content := JsonText j |} /\
    sd_metadata d = Some (j_metadata j) /\
    sd_current_iteration d = Some (j_current_iteration j) /\
    sd_experiment_name d = Some (j_experiment_name j) /\
    option_map len (sd_results d) = Some (j_results_count j) /\
    sd_results d = Some (results (fst s)) /\
    "out/demo_progress_20240517_093004.pkl" =
      str_path (path_join "out" ("demo_progress_20240517_093004" ++ ".pkl")).
Proof.
  cbv zeta.
  split; [vm_compute; reflexivity|]. split; [vm_compute; reflexivity|].
  split; [discriminate|]. split; [reflexivity|].
  apply (save_writes_consistent_sibling None
           (fst (demo calm_disk 1 true)) (snd (demo calm_disk 1 true))
           "out/demo_progress_20240517_093004.pkl"
           (snd (save None (fst (demo calm_disk 1 true),
                            snd (demo calm_disk 1 true))))
           "demo_progress_20240517_093004");
    [vm_compute; reflexivity | vm_compute; reflexivity | discriminate
    | reflexivity].
Defined.

(** X9, witness: [save("summary.json")]. *)
Lemma save_under_json_name_loses_the_pickle_witness :
  let s := (fst (demo calm_disk 1 true), snd (demo calm_disk 1 true)) in
  save (Some ("summary" ++ ".json")) s =
    (Returns "out/summary.json", snd (save (Some ("summary" ++ ".json")) s)) /\
  "summary" <> EmptyString /\
  no_separator "summary" = true /\
  "out/summary.json" = str_path (path_join "out" ("summary" ++ ".json")) /\
  exists m j,
    fs_lookup (path_join "out" ("summary" ++ ".json"))
              (files (snd (snd (save (Some ("summary" ++ ".json")) s)))) =
    Some {| f_path := path_join "out" ("summary" ++ ".json");
            f_mtime := m; f_content := JsonText j |}.
Proof.
  cbv zeta.
  split; [vm_compute; reflexivity|]. split; [discriminate|].
  split; [reflexivity|].
  apply (save_under_json_name_loses_the_pickle "summary"
           (fst (demo calm_disk 1 true)) (snd (demo calm_disk 1 true))
           "out/summary.json"
           (snd (save (Some ("summary" ++ ".json"))
                   (fst (demo calm_disk 1 true), snd (demo calm_disk 1 true)))));
    [vm_compute; reflexivity | discriminate | reflexivity].
Defined.

(** X10, witness: the dump fails on [flaky_disk]. *)
Lemma failed_dump_leaves_a_cut_file_witness :
  let e := fst (demo flaky_disk 1 true) in
  let w := snd (demo flaky_disk 1 true) in
  let p := path_join (output_dir e) (save_filename None e w) in
  io w (save_clock_reads None + 1 + tick w) = IoOk 6%Z /\
  io w (S (save_clock_reads None + 1 + tick w)) =
    IoErr (Exn OSError "[Errno 5] Input/output error") /\
  fst (save None (e, w)) = Raises (Exn OSError "[Errno 5] Input/output error") /\
  exists why,
    files (snd (snd (save None (e, w)))) =
      fs_write p 6%Z (Unreadable why) (files w) /\
    fs_lookup p (files (snd (snd (save None (e, w))))) =
      Some {| f_path := p; f_mtime := 6%Z; f_content := Unreadable why |}.
Proof.
  cbv zeta.
  split; [reflexivity|]. split; [reflexivity|].
  apply (failed_dump_leaves_a_cut_file None
           (fst (demo flaky_disk 1 true)) (snd (demo flaky_disk 1 true))
           6%Z (Exn OSError "[Errno 5] Input/output error"));
    reflexivity.
Defined.

(** X21, witness: one call on [demo] with auto-save off. *)
Lemma successful_call_without_autosave_witness :
  validate_input doubling 5%Z = Returns true /\
  process_input doubling 5%Z = Returns 6%Z /\
  generate_output doubling 6%Z = Returns 12%Z /\
  validate_output doubling 12%Z = Returns true /\
  auto_save (fst (demo calm_disk 1 false)) = false /\
  run_single doubling 5%Z
    (fst (demo calm_disk 1 false), snd (demo calm_disk 1 false)) =
  (Returns (success_record 5%Z 6%Z 12%Z (demo_clock 4)
              (fst (demo calm_disk 1 false))),
   (after_success 5%Z 6%Z 12%Z (demo_clock 4) (fst (demo calm_disk 1 false)),
    advance (snd (demo calm_disk 1 false)))).
Proof.
  do 5 (split; [reflexivity|]).
  apply (successful_call_without_autosave doubling 5%Z 6%Z 12%Z
           (fst (demo calm_disk 1 false)) (snd (demo calm_disk 1 false)));
    try reflexivity.
  left. reflexivity.
Defined.

(** X11, witness: two [save()] calls within one second. *)
Lemma same_second_saves_overwrite_witness :
  let s := demo_in_one_second in
  let s1 := snd (save None (fst s, snd s)) in
  let s3 := snd (save None (fst s1, snd s1)) in
  save None (fst s, snd s) =
    (Returns "out/demo_progress_20240517_093000.pkl", (fst s1, snd s1)) /\
  save None (fst s1, snd s1) =
    (Returns "out/demo_progress_20240517_093000.pkl", (fst s3, snd s3)) /\
  experiment_name (fst s1) = experiment_name (fst s) /\
  output_dir (fst s1) = output_dir (fst s) /\
  strftime_stamp (clock (snd s1) (tick (snd s1))) =
    strftime_stamp (clock (snd s) (tick (snd s))) /\
  "out/demo_progress_20240517_093000.pkl" =
    "out/demo_progress_20240517_093000.pkl" /\
  List.map f_path (files (snd s3)) = List.map f_path (files (snd s1)) /\
  exists m,
    fs_lookup (path_join (output_dir (fst s)) (save_filename None (fst s) (snd s)))
              (files (snd s3)) =
    Some {| f_path := path_join (output_dir (fst s))
                        (save_filename None (fst s) (snd s));
            f_mtime := m; f_content := Pickled (checkpoint (fst s3)) |}.
Proof.
  cbv zeta.
  split; [vm_compute; reflexivity|]. split; [vm_compute; reflexivity|].
  split; [reflexivity|]. split; [reflexivity|]. split; [vm_compute; reflexivity|].
  apply (same_second_saves_overwrite
           (fst demo_in_one_second) (snd demo_in_one_second)
           "out/demo_progress_20240517_093000.pkl"
           (fst (snd (save None (fst demo_in_one_second, snd demo_in_one_second))))
           (snd (snd (save None (fst demo_in_one_second, snd demo_in_one_second))))
           (fst (snd (save None (fst demo_in_one_second, snd demo_in_one_second))))
           (snd (snd (save None (fst demo_in_one_second, snd demo_in_one_second))))
           "out/demo_progress_20240517_093000.pkl");
    try (vm_compute; reflexivity); reflexivity.
Defined.

(** X12, witness: one successful call without auto-save, [finish], and
    a new instance on the directory as [finish] left it. *)
Lemma final_checkpoint_is_not_resumed_witness :
  let s := snd (run_single doubling 5%Z (demo calm_disk 2 true)) in
  let s' := snd (finish (fst s, snd s)) in
  plain_name (experiment_name (fst s)) = true /\
  well_named (files (snd s)) = true /\
  finish (fst s, snd s) = (Returns tt, s') /\
  files (snd s) = [] /\
  files (snd s') <> [] /\
  results (fst s) <> [] /\
  exists e2 w3,
    __init__ (experiment_name (fst s)) (output_dir (fst s)) 2 true (snd s') =
      (Returns e2, w3) /\
    empty_state e2.
Proof.
  cbv zeta.
  split; [vm_compute; reflexivity|]. split; [vm_compute; reflexivity|].
  split; [vm_compute; reflexivity|]. split; [vm_compute; reflexivity|].
  split; [vm_compute; discriminate|]. split; [vm_compute; discriminate|].
  destruct (__init__
              (experiment_name
                 (fst (snd (run_single doubling 5%Z (demo calm_disk 2 true)))))
              (output_dir
                 (fst (snd (run_single doubling 5%Z (demo calm_disk 2 true)))))
              2%Z true
              (snd (snd (finish
                           (fst (snd (run_single doubling 5%Z (demo calm_disk 2 true))),
                            snd (snd (run_single doubling 5%Z (demo calm_disk 2 true))))))))
    as [[e2 | ex] w3] eqn:Hinit.
  2:{ vm_compute in Hinit. discriminate Hinit. }
  exists e2, w3. split; [reflexivity|].
  apply (final_checkpoint_is_not_resumed
           (fst (snd (run_single doubling 5%Z (demo calm_disk 2 true))))
           (snd (snd (run_single doubling 5%Z (demo calm_disk 2 true))))
           (snd (finish (fst (snd (run_single doubling 5%Z (demo calm_disk 2 true))),
                         snd (snd (run_single doubling 5%Z (demo calm_disk 2 true))))))
           (snd (snd (finish (fst (snd (run_single doubling 5%Z (demo calm_disk 2 true))),
                         snd (snd (run_single doubling 5%Z (demo calm_disk 2 true)))))))
           2%Z true e2 w3);
    [ vm_compute; reflexivity | vm_compute; reflexivity
    | vm_compute; reflexivity
    | intros g Hg; vm_compute in Hg; destruct Hg
    | reflexivity | exact Hinit ].
Defined.

(** X14, at an input: the second [mkdir] fails on [quota_disk]. *)
Example constructor_raises_on_quota_disk :
  first_mkdir_error (world_of [] quota_disk) =
    Some (Exn OSError "[Errno 122] Disk quota exceeded: 'out/logs'") /\
  fst (__init__ "demo" "out" 1 true (world_of [] quota_disk)) =
    Raises (Exn OSError "[Errno 122] Disk quota exceeded: 'out/logs'").
Proof. split; vm_compute; reflexivity. Qed.

(** X15, witness: an instance that resumed from one of the two
    checkpoints, constructed with interval 3 and auto-save off. *)
Lemma constructor_keeps_its_arguments_witness :
  exists e w',
    __init__ "demo" "out" 3 false (world_of two_checkpoints calm_disk) =
      (Returns e, w') /\
    current_iteration e = 1%Z /\
    experiment_name e = "demo" /\
    output_dir e = "out" /\
    save_interval e = 3%Z /\
    auto_save e = false /\
    total_iterations e = 0%Z /\
    benchmark_dir e = Some (path_join "out" "benchmarks") /\
    log_dir e = Some (path_join "out" "logs").
Proof.
  do 2 eexists. split; [reflexivity|]. split; [reflexivity|].
  eapply (constructor_keeps_its_arguments "demo" "out" 3%Z false
            (world_of two_checkpoints calm_disk)).
  reflexivity.
Defined.

(** X16, witness: five successful calls with interval 2 save twice. *)
Lemma autosave_every_nth_success_witness :
  Forall (steps_succeed doubling) [5; 6; 7; 8; 9]%Z /\
  (forall k, io_ok (io (snd (demo calm_disk 2 true)) k) = true) /\
  auto_save (fst (demo calm_disk 2 true)) = true /\
  (0 < save_interval (fst (demo calm_disk 2 true)))%Z /\
  let s' := run_each doubling [5; 6; 7; 8; 9]%Z
              (fst (demo calm_disk 2 true), snd (demo calm_disk 2 true)) in
  current_iteration (fst s') = (0 + 5)%Z /\
  Z.of_nat (List.length (stdout (snd s'))) = (0 + ((0 + 5) / 2 - 0 / 2))%Z.
Proof.
  assert (H1 : Forall (steps_succeed doubling) [5; 6; 7; 8; 9]%Z)
    by (repeat constructor; do 2 eexists; repeat split; reflexivity).
  assert (H2 : forall k, io_ok (io (snd (demo calm_disk 2 true)) k) = true)
    by (intros k; reflexivity).
  split; [exact H1|]. split; [exact H2|].
  split; [reflexivity|]. split; [reflexivity|].
  apply (autosave_every_nth_success doubling [5; 6; 7; 8; 9]%Z
           (fst (demo calm_disk 2 true)) (snd (demo calm_disk 2 true))
           H1 H2 eq_refl eq_refl).
Defined.

(** X17, witness: a file of the user's in the output directory. *)
Lemma run_single_leaves_other_files_alone_witness :
  let e := fst (demo calm_disk 1 true) in
  let w := with_files
             (fun _ => [ {| f_path := path_join "out" "notes.txt"; f_mtime := 1;
                            f_content := Unreadable "text" |} ])
             (snd (demo calm_disk 1 true)) in
  plain_name (experiment_name e) = true /\
  parent (path_join "out" "notes.txt") = output_dir e /\
  single_component (name (path_join "out" "notes.txt")) = true /\
  String.prefix (experiment_name e ++ "_progress_")
    (name (path_join "out" "notes.txt")) = false /\
  let s' := snd (run_single doubling 5%Z (e, w)) in
  fs_lookup (path_join "out" "notes.txt") (files (snd s')) =
    fs_lookup (path_join "out" "notes.txt") (files w) /\
  experiment_name (fst s') = experiment_name e /\
  output_dir (fst s') = output_dir e /\
  save_interval (fst s') = save_interval e /\
  auto_save (fst s') = auto_save e /\
  total_iterations (fst s') = total_iterations e.
Proof.
  cbv zeta.
  split; [vm_compute; reflexivity|]. split; [vm_compute; reflexivity|].
  split; [vm_compute; reflexivity|]. split; [vm_compute; reflexivity|].
  apply (run_single_leaves_other_files_alone doubling 5%Z
           (fst (demo calm_disk 1 true))
           (with_files
              (fun _ => [ {| f_path := path_join "out" "notes.txt"; f_mtime := 1;
                             f_content := Unreadable "text" |} ])
              (snd (demo calm_disk 1 true)))
           (path_join "out" "notes.txt"));
    vm_compute; reflexivity.
Defined.
